(** * scm-gitlab: a shallow embedding of [index.js]

    The module under study is the GitLab adapter of a CI platform: one
    class, [GitlabScm], whose methods translate between SCM URIs
    ([host:projectId:branch]), checkout URLs and GitLab's REST API, every
    outbound call going through a circuit breaker.

    The embedding follows the JavaScript source function by function.
    JavaScript values are a small dynamic type [jsval]; a synchronous
    computation either returns or throws ([outcome]); a promise is modelled
    by its settled state ([promise]); the requests handed to the breaker are
    recorded in a trace that every method threads through ([M]). *)

From Stdlib Require Import String Ascii List ZArith Bool Lia.
From Stdlib Require Import DecimalString.
Import ListNotations.

Local Open Scope string_scope.
Local Open Scope Z_scope.

(** ** JavaScript values *)

Module JS.

(** Values that occur in this program: JSON data (numbers restricted to
    integers), [undefined], and opaque built-in functions, which only arise
    when a dynamic key hits a property inherited from [Object.prototype].
    The property list of an object is in enumeration order. *)
#[warnings="-register-all"]
Inductive jsval : Type :=
| VUndefined
| VNull
| VBool (b : bool)
| VNum (n : Z)
| VStr (s : string)
| VArr (items : list jsval)
| VObj (props : list (string * jsval))
| VFunction (name : string).

Inductive js_error : Type :=
| Error (message : string)
| TypeError (message : string)
| ReferenceError (message : string).

(** The double quote character, and [s] between double quotes. *)
Definition dquote : string := String (ascii_of_nat 34) EmptyString.
Definition backslash : string := String (ascii_of_nat 92) EmptyString.
Definition quoted (s : string) : string := dquote ++ s ++ dquote.

Fixpoint join (sep : string) (l : list string) : string :=
  match l with
  | [] => EmptyString
  | [x] => x
  | x :: rest => x ++ sep ++ join sep rest
  end.

Definition string_of_Z (n : Z) : string := NilZero.string_of_int (Z.to_int n).

(** [Boolean(v)]: the falsy values are [undefined], [null], [false], [0]
    and the empty string. *)
Definition truthy (v : jsval) : bool :=
  match v with
  | VUndefined | VNull => false
  | VBool b => b
  | VNum n => negb (n =? 0)
  | VStr s => negb (String.eqb s EmptyString)
  | VArr _ | VObj _ | VFunction _ => true
  end.

(** [String(v)], the conversion a template literal applies to each
    substitution. *)
Fixpoint to_string (v : jsval) : string :=
  match v with
  | VUndefined => "undefined"
  | VNull => "null"
  | VBool true => "true"
  | VBool false => "false"
  | VNum n => string_of_Z n
  | VStr s => s
  | VArr items =>
      join ","
        (map (fun x => match x with
                       | VUndefined | VNull => EmptyString
                       | _ => to_string x
                       end) items)
  | VObj _ => "[object Object]"
  | VFunction name => "function " ++ name ++ "() { [native code] }"
  end.

(** String escaping of [JSON.stringify]. *)
Definition hex_digit (n : nat) : string :=
  String (ascii_of_nat (if Nat.ltb n 10 then 48 + n else 87 + n)) EmptyString.

Definition escape_char (c : ascii) : string :=
  let n := nat_of_ascii c in
  if Nat.eqb n 34 then backslash ++ dquote
  else if Nat.eqb n 92 then backslash ++ backslash
  else if Nat.eqb n 8 then backslash ++ "b"
  else if Nat.eqb n 12 then backslash ++ "f"
  else if Nat.eqb n 10 then backslash ++ "n"
  else if Nat.eqb n 13 then backslash ++ "r"
  else if Nat.eqb n 9 then backslash ++ "t"
  else if Nat.ltb n 32
       then backslash ++ "u00" ++ hex_digit (Nat.div n 16) ++ hex_digit (Nat.modulo n 16)
  else String c EmptyString.

Fixpoint escape (s : string) : string :=
  match s with
  | EmptyString => EmptyString
  | String c rest => escape_char c ++ escape rest
  end.

Definition json_string (s : string) : string := quoted (escape s).

(** [JSON.stringify(v)]; [None] stands for the result [undefined].  Inside
    an array [undefined] and functions print as [null]; inside an object
    such properties are left out. *)
Fixpoint stringify (v : jsval) : option string :=
  match v with
  | VUndefined | VFunction _ => None
  | VNull => Some "null"
  | VBool true => Some "true"
  | VBool false => Some "false"
  | VNum n => Some (string_of_Z n)
  | VStr s => Some (json_string s)
  | VArr items =>
      Some ("[" ++ join ","
                     (map (fun x => match stringify x with
                                    | Some s => s
                                    | None => "null"
                                    end) items) ++ "]")
  | VObj props =>
      Some ("{" ++ join ","
                     (flat_map (fun kv => match stringify (snd kv) with
                                          | Some s => [json_string (fst kv) ++ ":" ++ s]
                                          | None => []
                                          end) props) ++ "}")
  end.

Definition JSON_stringify (v : jsval) : jsval :=
  match stringify v with
  | Some s => VStr s
  | None => VUndefined
  end.

(** Own properties. *)
Fixpoint assoc {A : Type} (k : string) (l : list (string * A)) : option A :=
  match l with
  | [] => None
  | (k', v) :: rest => if String.eqb k k' then Some v else assoc k rest
  end.

(** Properties every object inherits from [Object.prototype]. *)
Definition object_prototype_functions : list string :=
  [ "constructor"; "hasOwnProperty"; "isPrototypeOf"; "propertyIsEnumerable";
    "toLocaleString"; "toString"; "valueOf";
    "__defineGetter__"; "__defineSetter__"; "__lookupGetter__"; "__lookupSetter__" ].

Definition mem (k : string) (l : list string) : bool :=
  existsb (String.eqb k) l.

(** What a value without own property [k] answers for [v[k]]: a built-in
    function of [Object.prototype], the prototype itself for [__proto__]
    (an object without enumerable properties), else [undefined]. *)
Definition inherited (k : string) : jsval :=
  if mem k object_prototype_functions
  then VFunction (if String.eqb k "constructor" then "Object" else k)
  else if String.eqb k "__proto__" then VObj []
  else VUndefined.

(** [o[k]] for an object with own properties [props]. *)
Definition object_get (props : list (string * jsval)) (k : string) : jsval :=
  match assoc k props with
  | Some v => v
  | None => inherited k
  end.

(** [k in o] for an object with own properties [props]. *)
Definition object_has (props : list (string * jsval)) (k : string) : bool :=
  match assoc k props with
  | Some _ => true
  | None => mem k object_prototype_functions || String.eqb k "__proto__"
  end.

(** [String.prototype.split] with a one-character separator. *)
Fixpoint split (sep : ascii) (s : string) : list string :=
  match s with
  | EmptyString => [EmptyString]
  | String c rest =>
      if Ascii.eqb c sep then EmptyString :: split sep rest
      else match split sep rest with
           | [] => [String c EmptyString]
           | field :: fields => String c field :: fields
           end
  end.

(** [s.slice(1)]. *)
Definition slice1 (s : string) : string :=
  match s with
  | EmptyString => EmptyString
  | String _ rest => rest
  end.

(** The result of a synchronous computation. *)
Inductive outcome (A : Type) : Type :=
| Returned (a : A)
| Thrown (e : js_error).
Arguments Returned {A} a.
Arguments Thrown {A} e.

(** A promise, by its settled state. *)
Inductive promise (A : Type) : Type :=
| Fulfilled (a : A)
| Rejected (reason : js_error).
Arguments Fulfilled {A} a.
Arguments Rejected {A} reason.

End JS.
Import JS.

(** ** Constants of the module *)

Definition DEFAULT_AUTHOR : jsval :=
  VObj [ ("avatar", VStr "https://cd.screwdriver.cd/assets/unknown_user.png");
         ("name", VStr "n/a");
         ("username", VStr "n/a");
         ("url", VStr "https://cd.screwdriver.cd/") ].

Definition MATCH_COMPONENT_HOSTNAME : nat := 1.
Definition MATCH_COMPONENT_USER : nat := 2.
Definition MATCH_COMPONENT_BRANCH : nat := 4.
Definition MATCH_COMPONENT_REPO : nat := 3.

Definition STATE_MAP : list (string * jsval) :=
  [ ("SUCCESS", VStr "success");
    ("RUNNING", VStr "pending");
    ("QUEUED", VStr "pending") ].

Definition DESCRIPTION_MAP : list (string * jsval) :=
  [ ("SUCCESS", VStr "Everything looks good!");
    ("FAILURE", VStr "Did not work as expected.");
    ("ABORTED", VStr "Aborted mid-flight");
    ("RUNNING", VStr "Testing your code...");
    ("QUEUED", VStr "Looking for a place to park...") ].

(** ** SCM URIs *)

(** The template literal of [_parseUrl] that builds an SCM URI. *)
Definition encodeScmUri (host projectId branch : string) : string :=
  host ++ ":" ++ projectId ++ ":" ++ branch.

(** [const [scmHost, scmId, scmBranch] = scmUri.split(':')]: array
    destructuring takes the first three fields, binds [undefined] ([None])
    where the array is too short and ignores what is left. *)
Definition decodeScmUri (scmUri : string)
  : outcome (option string * option string * option string) :=
  let fields := split ":" scmUri in
  Returned (nth_error fields 0, nth_error fields 1, nth_error fields 2).

(** What a template literal prints for a destructured field. *)
Definition field_string (f : option string) : string :=
  match f with
  | Some s => s
  | None => "undefined"
  end.

(** ** Property access on values *)

(** A canonical array index: decimal digits without a leading zero. *)
Definition digit_value (c : ascii) : option nat :=
  let n := nat_of_ascii c in
  if Nat.leb 48 n && Nat.leb n 57 then Some (n - 48)%nat else None.

Fixpoint digits_value (s : string) (acc : nat) : option nat :=
  match s with
  | EmptyString => Some acc
  | String c rest =>
      match digit_value c with
      | Some d => digits_value rest (10 * acc + d)%nat
      | None => None
      end
  end.

Definition key_index (k : string) : option nat :=
  match k with
  | EmptyString => None
  | String c EmptyString => digit_value c
  | String c _ => if Ascii.eqb c "0" then None else digits_value k 0
  end.

Fixpoint chars (s : string) : list jsval :=
  match s with
  | EmptyString => []
  | String c rest => VStr (String c EmptyString) :: chars rest
  end.

(** [k in v], for the values [in] accepts.  Built-in methods of arrays and
    functions are not listed: the program reaches into JSON data with
    constant keys only, none of which names such a method. *)
Definition has_property (v : jsval) (k : string) : bool :=
  match v with
  | VObj props => object_has props k
  | VArr items =>
      match key_index k with
      | Some i => Nat.ltb i (List.length items)
      | None => String.eqb k "length" || object_has [] k
      end
  | VFunction _ => String.eqb k "name" || object_has [] k
  | _ => false
  end.

(** [v[k]] where [v] is neither [undefined] nor [null]. *)
Definition get_property (v : jsval) (k : string) : jsval :=
  match v with
  | VObj props => object_get props k
  | VArr items =>
      match key_index k with
      | Some i => nth i items VUndefined
      | None => if String.eqb k "length" then VNum (Z.of_nat (List.length items))
                else inherited k
      end
  | VStr s =>
      match key_index k with
      | Some i => nth i (chars s) VUndefined
      | None => if String.eqb k "length" then VNum (Z.of_nat (String.length s))
                else inherited k
      end
  | VFunction name => if String.eqb k "name" then VStr name else inherited k
  | _ => inherited k
  end.

(** [v.k] as an expression: reading a property of [undefined] or [null]
    throws. *)
Definition get_member (v : jsval) (k : string) : outcome jsval :=
  match v with
  | VUndefined =>
      Thrown (TypeError ("Cannot read property '" ++ k ++ "' of undefined"))
  | VNull =>
      Thrown (TypeError ("Cannot read property '" ++ k ++ "' of null"))
  | _ => Returned (get_property v k)
  end.

(** [v.split(sep)] as an expression. *)
Definition split_method (v : jsval) (sep : ascii) : outcome (list string) :=
  match v with
  | VStr s => Returned (split sep s)
  | VUndefined => Thrown (TypeError "Cannot read property 'split' of undefined")
  | VNull => Thrown (TypeError "Cannot read property 'split' of null")
  | _ => Thrown (TypeError "split is not a function")
  end.

(** ** Hoek.reach *)

(** The loop of [Hoek.reach(obj, chain, { default })] over the segments of
    the chain: as soon as the current reference is falsy, is not an object
    or a function, or lacks the segment, the default is the result. *)
Fixpoint reach_from (ref : jsval) (path : list string) (default : jsval) : jsval :=
  match path with
  | [] => ref
  | key :: rest =>
      if negb (truthy ref) || negb (has_property ref key) then default
      else reach_from (get_property ref key) rest default
  end.

Definition Hoek_reach (obj : jsval) (chain : string) (default : jsval) : jsval :=
  reach_from obj (split "." chain) default.

(** ** HTTP responses *)

(** What the breaker resolves with: the response of the [request] library,
    an object with a numeric [statusCode], the [body] (parsed JSON when the
    request sets [json: true]) and further properties. *)
Record response : Type := mkResponse {
  statusCode : Z;
  body : jsval;
  others : list (string * jsval)
}.

Definition response_props (r : response) : list (string * jsval) :=
  ("statusCode", VNum (statusCode r)) :: ("body", body r) :: others r.

Definition response_value (r : response) : jsval := VObj (response_props r).

(** [checkResponseError], lines 51-64. *)
Definition checkResponseError (response : response) : outcome unit :=
  if (200 <=? statusCode response) && (statusCode response <? 300) then
    Returned tt
  else
    let errorMessage :=
      Hoek_reach (response_value response) "body.error.message"
        (VStr ("SCM service unavailable ("
                 ++ to_string (VNum (statusCode response)) ++ ").")) in
    let errorReason :=
      Hoek_reach (response_value response) "body.error.detail.required"
        (JSON_stringify (body response)) in
    Thrown (Error (to_string errorMessage ++ " Reason "
                     ++ quoted (to_string errorReason))).

(** The structured error fields of a body, read through own properties of
    nested objects. *)
Fixpoint json_path (v : jsval) (path : list string) : option jsval :=
  match path with
  | [] => Some v
  | key :: rest =>
      match v with
      | VObj props =>
          match assoc key props with
          | Some x => json_path x rest
          | None => None
          end
      | _ => None
      end
  end.

(** ** Checkout URLs *)

Record repoInfo : Type := mkRepoInfo {
  hostname : option string;
  repo : option string;
  branch : string;
  username : option string
}.

(** [matched[i]] on a match array: a group that did not take part in the
    match, or an index past the end, is [undefined]. *)
Definition group (matched : list (option string)) (i : nat) : option string :=
  match nth_error matched i with
  | Some g => g
  | None => None
  end.

Section CheckoutUrl.

(** [Schema.config.regex.CHECKOUT_URL.exec], from the package
    screwdriver-data-schema: [None] is the [null] of a failed match,
    otherwise the match array (whole match first, then the groups). *)
Variable CHECKOUT_URL_exec : string -> option (list (option string)).

(** [getRepoInfo], lines 72-82. *)
Definition getRepoInfo (checkoutUrl : string) : outcome repoInfo :=
  let matched := CHECKOUT_URL_exec checkoutUrl in
  match matched with
  | None => Thrown (TypeError "Cannot read property '1' of null")
  | Some matched =>
      match group matched MATCH_COMPONENT_BRANCH with
      | None => Thrown (TypeError "Cannot read property 'slice' of undefined")
      | Some branchRef =>
          Returned {| hostname := group matched MATCH_COMPONENT_HOSTNAME;
                      repo := group matched MATCH_COMPONENT_REPO;
                      branch := slice1 branchRef;
                      username := group matched MATCH_COMPONENT_USER |}
      end
  end.

End CheckoutUrl.

(** A character of one component of a checkout URL. *)
Definition component_char (c : ascii) : bool :=
  negb (Ascii.eqb c "/" || Ascii.eqb c ":" || Ascii.eqb c "#" || Ascii.eqb c " ").

Fixpoint all_chars (p : ascii -> bool) (s : string) : bool :=
  match s with
  | EmptyString => true
  | String c rest => p c && all_chars p rest
  end.

Definition component (s : string) : bool :=
  negb (String.eqb s EmptyString) && all_chars component_char s.

(** Modelled from the spec: the pattern [CHECKOUT_URL] itself is a constant
    of screwdriver-data-schema and not in index.js.  The spec gives its
    shape as [protocol://host/namespace/repo#branchRef] with the
    [#branchRef] part optional; group 4 is that part, [#] included. *)
Definition spec_CHECKOUT_URL_exec (url : string) : option (list (option string)) :=
  match index 0 "://" url with
  | None => None
  | Some i =>
      let protocol := substring 0 i url in
      let rest := substring (i + 3) (String.length url - (i + 3)) url in
      let '(location, branchRef) :=
        match index 0 "#" rest with
        | None => (rest, None)
        | Some j => (substring 0 j rest,
                     Some (substring j (String.length rest - j) rest))
        end in
      let branch_ok :=
        match branchRef with
        | None => true
        | Some b => component (slice1 b)
        end in
      match split "/" location with
      | [host; namespace; name] =>
          if component protocol && component host && component namespace
             && component name && branch_ok
          then Some [Some url; Some host; Some namespace; Some name; branchRef]
          else None
      | _ => None
      end
  end.

(** ** Effects: the trace of breaker calls, exceptions, promises *)

(** The requests handed to the breaker so far, oldest first. *)
Definition trace : Type := list jsval.

(** A synchronous computation: it may log requests, and returns or
    throws. *)
Definition M (A : Type) : Type := trace -> outcome A * trace.

Definition ret {A : Type} (a : A) : M A := fun tr => (Returned a, tr).

Definition throw {A : Type} (e : js_error) : M A := fun tr => (Thrown e, tr).

Definition bind {A B : Type} (m : M A) (k : A -> M B) : M B :=
  fun tr =>
    match m tr with
    | (Returned a, tr') => k a tr'
    | (Thrown e, tr') => (Thrown e, tr')
    end.

Definition lift {A : Type} (o : outcome A) : M A := fun tr => (o, tr).

Notation "x <- m ;; k" := (bind m (fun x => k))
  (at level 61, m at next level, right associativity).
Notation "' pat <- m ;; k" := (bind m (fun x => match x with pat => k end))
  (at level 61, pat pattern, m at next level, right associativity).

Definition resolve {A : Type} (a : A) : M (promise A) := ret (Fulfilled a).

(** [p.then(cb)]: the callback runs once [p] is fulfilled, an exception in
    it rejects the resulting promise, a promise it returns is adopted, and
    a rejection of [p] passes through.  Every chain of this module hangs
    off a single breaker call, so running the callback where the chain is
    built keeps the order of the logged requests. *)
Definition then_ {A B : Type} (p : promise A) (cb : A -> M (promise B))
  : M (promise B) :=
  fun tr =>
    match p with
    | Fulfilled a =>
        match cb a tr with
        | (Returned q, tr') => (Returned q, tr')
        | (Thrown e, tr') => (Returned (Rejected e), tr')
        end
    | Rejected e => (Returned (Rejected e), tr)
    end.

(** The promise a validation gives: fulfilled with the value, or rejected
    with what was thrown. *)
Definition settled {A : Type} (o : outcome A) : promise A :=
  match o with
  | Returned a => Fulfilled a
  | Thrown e => Rejected e
  end.

(** [Promise.all([p, q])]. *)
Definition Promise_all {A B : Type} (p : promise A) (q : promise B)
  : promise (A * B) :=
  match p, q with
  | Fulfilled a, Fulfilled b => Fulfilled (a, b)
  | Rejected e, _ => Rejected e
  | Fulfilled _, Rejected e => Rejected e
  end.

(** ** The circuit breaker *)

(** An instance of circuit-fuses' [Breaker], as [new Breaker(Request,
    options)] builds it: a plain object holding the command it guards and
    its options, used through its methods ([runCommand], [stats]).  The
    command is an oracle for the network and the fuse: given the requests
    made so far and a new one, it says how the call settles. *)
Record Breaker : Type := mkBreaker {
  command : trace -> jsval -> promise response;
  breakerOptions : jsval
}.

(** [receiver.runCommand(request)] where [receiver] is the value of a
    property of [this] ([None]: the property is [undefined]). *)
Definition runCommand (receiver : option Breaker) (request : jsval)
  : M (promise response) :=
  fun tr =>
    match receiver with
    | None =>
        (Thrown (TypeError "Cannot read property 'runCommand' of undefined"), tr)
    | Some b => (Returned (command b tr request), (tr ++ [request])%list)
    end.

(** [callee(request)], calling the value of a property of [this] as a
    function: neither [undefined] nor a breaker object is callable. *)
Definition call (callee : option Breaker) (name : string) (request : jsval)
  : M (promise response) :=
  fun tr => (Thrown (TypeError (name ++ " is not a function")), tr).

(** ** The class [GitlabScm] *)

(** The constructor's argument. *)
Record options : Type := mkOptions {
  opt_gitlabProtocol : option string;
  opt_gitlabHost : option string;
  opt_username : option string;
  opt_email : option string;
  opt_https : option bool;
  opt_oauthClientId : option string;
  opt_oauthClientSecret : option string;
  opt_fusebox : option jsval
}.

(** [this.config], the validated configuration. *)
Record Config : Type := mkConfig {
  gitlabProtocol : string;
  gitlabHost : option string;
  cfg_username : string;
  email : string;
  https : bool;
  oauthClientId : string;
  oauthClientSecret : string;
  fusebox : jsval
}.

(** An instance: its configuration and its breaker-valued own properties,
    by name.  Neither the class nor its base class defines a property on
    the prototype under the names the methods read. *)
Record GitlabScm : Type := mkGitlabScm {
  config : Config;
  properties : list (string * Breaker)
}.

Definition this_get (this : GitlabScm) (name : string) : option Breaker :=
  assoc name (properties this).

(** The Joi schema of the constructor: [Joi.string()] accepts non-empty
    strings, [Joi.object()] accepts objects (neither arrays nor [null]),
    [required()] refuses a missing key, [default(v)] fills one in. *)
Definition joi_string (v : option string) : outcome (option string) :=
  match v with
  | Some s =>
      if String.eqb s EmptyString then Thrown (Error "Invalid config for Gitlab")
      else Returned (Some s)
  | None => Returned None
  end.

Definition joi_required (v : option string) : outcome string :=
  match v with
  | Some s =>
      if String.eqb s EmptyString then Thrown (Error "Invalid config for Gitlab")
      else Returned s
  | None => Thrown (Error "Invalid config for Gitlab")
  end.

Definition joi_object (v : option jsval) : outcome (option jsval) :=
  match v with
  | Some (VObj props) => Returned (Some (VObj props))
  | Some _ => Thrown (Error "Invalid config for Gitlab")
  | None => Returned None
  end.

Definition default {A : Type} (d : A) (v : option A) : A :=
  match v with
  | Some a => a
  | None => d
  end.

Definition obind {A B : Type} (o : outcome A) (k : A -> outcome B) : outcome B :=
  match o with
  | Returned a => k a
  | Thrown e => Thrown e
  end.

Definition Joi_attempt (o : options) : outcome Config :=
  obind (joi_string (opt_gitlabProtocol o)) (fun protocol =>
  obind (joi_string (opt_gitlabHost o)) (fun host =>
  obind (joi_string (opt_username o)) (fun user =>
  obind (joi_string (opt_email o)) (fun mail =>
  obind (joi_required (opt_oauthClientId o)) (fun clientId =>
  obind (joi_required (opt_oauthClientSecret o)) (fun clientSecret =>
  obind (joi_object (opt_fusebox o)) (fun fuse =>
  Returned {| gitlabProtocol := default "https" protocol;
              gitlabHost := host;
              cfg_username := default "sd-buildbot" user;
              email := default "dev-null@screwdriver.cd" mail;
              https := default false (opt_https o);
              oauthClientId := clientId;
              oauthClientSecret := clientSecret;
              fusebox := default (VObj []) fuse |}))))))).

(** [constructor], lines 99-123.  [Request] is the HTTP client the breaker
    wraps.  The properties assigned are [config] and [breaker]. *)
Definition constructor (Request : trace -> jsval -> promise response)
    (o : options) : outcome GitlabScm :=
  obind (Joi_attempt o) (fun config =>
  Returned {| config := config;
              properties := [("breaker", mkBreaker Request (fusebox config))] |}).

(** What a method resolves with when it looks up an SCM URI. *)
Record scmInfo : Type := mkScmInfo {
  scm_branch : option string;
  scm_host : option string;
  scm_repo : option string;
  scm_owner : option string
}.

Definition optional (f : option string) : jsval :=
  match f with
  | Some s => VStr s
  | None => VUndefined
  end.

(** [config.x ? ... : ...] and [config.x || ...] on an optional string. *)
Definition given (f : option string) : bool := truthy (optional f).

(** The common prefix of the URL templates. *)
Definition api (this : GitlabScm) (path : string) : string :=
  gitlabProtocol (config this) ++ "://"
    ++ field_string (gitlabHost (config this)) ++ "/api/v3/" ++ path.

(** The request literal [{ json: true, method, auth: { bearer }, url }]. *)
Definition request (method token url : string) : list (string * jsval) :=
  [ ("json", VBool true);
    ("method", VStr method);
    ("auth", VObj [("bearer", VStr token)]);
    ("url", VStr url) ].

Section Methods.

Variable CHECKOUT_URL_exec : string -> option (list (option string)).

(** [new Buffer(content, encoding).toString()], a Node built-in. *)
Variable Buffer_toString : jsval -> jsval -> outcome string.

(** The two schema validations of the inherited [decorateAuthor] (package
    screwdriver-scm-base with screwdriver-data-schema): of its argument,
    the token and the user name, and of the decoration it resolves with.
    Each returns the validated value or throws. *)
Variable validate_decorateAuthor : string -> jsval -> outcome (string * jsval).
Variable validate_user : jsval -> outcome jsval.

(** [lookupScmUri], lines 134-156. *)
Definition lookupScmUri (this : GitlabScm) (scmUri token : string)
  : M (promise scmInfo) :=
  '(scmHost, scmId, scmBranch) <- lift (decodeScmUri scmUri) ;;
  settled <- runCommand (this_get this "Breaker")
               (VObj (request "GET" token
                        (api this ("projects/" ++ field_string scmId)))) ;;
  then_ settled (fun response =>
    _ <- lift (checkResponseError response) ;;
    path_with_namespace <- lift (get_member (body response) "path_with_namespace") ;;
    names <- lift (split_method path_with_namespace "/") ;;
    resolve {| scm_branch := scmBranch;
               scm_host := scmHost;
               scm_repo := nth_error names 1;
               scm_owner := nth_error names 0 |}).

(** [_parseUrl], lines 180-198. *)
Definition _parseUrl (this : GitlabScm) (checkoutUrl token : string)
  : M (promise string) :=
  repoInfo <- lift (getRepoInfo CHECKOUT_URL_exec checkoutUrl) ;;
  let requestOptions :=
    VObj (request "GET" token
            (api this ("projects/" ++ field_string (username repoInfo)
                         ++ "%2F" ++ field_string (repo repoInfo)))) in
  settled <- runCommand (this_get this "breaker") requestOptions ;;
  then_ settled (fun response =>
    _ <- lift (checkResponseError response) ;;
    id <- lift (get_member (body response) "id") ;;
    resolve (encodeScmUri (field_string (hostname repoInfo))
                          (to_string id) (branch repoInfo))).

(** [_decorateUrl], lines 273-286. *)
Definition _decorateUrl (this : GitlabScm) (scmUri token : string)
  : M (promise jsval) :=
  looked <- lookupScmUri this scmUri token ;;
  then_ looked (fun scmInfo =>
    let baseUrl := field_string (scm_host scmInfo) ++ "/"
                     ++ field_string (scm_owner scmInfo) ++ "/"
                     ++ field_string (scm_repo scmInfo) in
    resolve (VObj
      [ ("branch", optional (scm_branch scmInfo));
        ("name", VStr (field_string (scm_owner scmInfo) ++ "/"
                         ++ field_string (scm_repo scmInfo)));
        ("url", VStr ("https://" ++ baseUrl ++ "/tree/"
                        ++ field_string (scm_branch scmInfo))) ])).

(** [_decorateAuthor], lines 343-364. *)
Definition _decorateAuthor (this : GitlabScm) (token : string) (username : jsval)
  : M (promise jsval) :=
  let requestOptions :=
    VObj (request "GET" token
            (api this ("users/username=" ++ to_string username))) in
  settled <- runCommand (this_get this "breaker") requestOptions ;;
  then_ settled (fun response =>
    _ <- lift (checkResponseError response) ;;
    avatar_url <- lift (get_member (body response) "avatar_url") ;;
    name <- lift (get_member (body response) "name") ;;
    username <- lift (get_member (body response) "username") ;;
    web_url <- lift (get_member (body response) "web_url") ;;
    resolve (VObj [ ("avatar", avatar_url);
                    ("name", name);
                    ("username", username);
                    ("url", web_url) ])).

(** Modelled from the spec: [decorateAuthor] is an operation of the inbound
    contract that the class inherits from its base class
    (screwdriver-scm-base); the method itself is not in index.js, which
    calls it at line 317.  The base class validates the argument, hands
    the validated argument to [_decorateAuthor] and validates what that
    resolves with; a failed validation, like an exception in
    [_decorateAuthor], rejects the promise. *)
Definition decorateAuthor (this : GitlabScm) (token : string) (username : jsval)
  : M (promise jsval) :=
  author <- then_ (settled (validate_decorateAuthor token username))
              (fun validInput =>
                 _decorateAuthor this (fst validInput) (snd validInput)) ;;
  then_ author (fun author => ret (settled (validate_user author))).

(** The request of the commit lookup in [_decorateCommit]. *)
Definition getCommit (token sha : string) (scmInfo : scmInfo) : jsval :=
  VObj [ ("action", VStr "getCommit");
         ("token", VStr token);
         ("params", VObj [ ("owner", optional (scm_owner scmInfo));
                           ("repo", optional (scm_repo scmInfo));
                           ("sha", VStr sha) ]) ].

(** The first half of [_decorateCommit], lines 298-311. *)
Definition commitLookup (this : GitlabScm) (scmUri sha token : string)
  : M (promise response) :=
  looked <- lookupScmUri this scmUri token ;;
  then_ looked (fun scmInfo =>
    runCommand (this_get this "breaker") (getCommit token sha scmInfo)).

(** The callback of [authorLookup], lines 312-321. *)
Definition authorLookup (this : GitlabScm) (token : string) (commitData : response)
  : M (promise jsval) :=
  let author := get_property (response_value commitData) "author" in
  if negb (truthy author) then resolve DEFAULT_AUTHOR
  else
    login <- lift (get_member author "login") ;;
    decorateAuthor this token login.

(** The callback that joins both results, lines 326-331. *)
Definition decorated (results : response * jsval) : M (promise jsval) :=
  let '(commitData, authorData) := results in
  let commit := get_property (response_value commitData) "commit" in
  message <- lift (get_member commit "message") ;;
  resolve (VObj [ ("author", authorData);
                  ("message", message);
                  ("url", get_property (response_value commitData) "html_url") ]).

(** [_decorateCommit], lines 297-333. *)
Definition _decorateCommit (this : GitlabScm) (scmUri sha token : string)
  : M (promise jsval) :=
  commit <- commitLookup this scmUri sha token ;;
  author <- then_ commit (authorLookup this token) ;;
  then_ (Promise_all commit author) decorated.

(** [_getPermissions], lines 374-403. *)
Definition _getPermissions (this : GitlabScm) (scmUri token : string)
  : M (promise jsval) :=
  '(scmHost, scmId, scmBranch) <- lift (decodeScmUri scmUri) ;;
  let requestOptions :=
    VObj (request "GET" token (api this ("projects/" ++ field_string scmId))) in
  settled <- runCommand (this_get this "breaker") requestOptions ;;
  then_ settled (fun response =>
    _ <- lift (checkResponseError response) ;;
    resolve (VObj [ ("admin", VBool true);
                    ("push", VBool true);
                    ("pull", VBool true) ])).

(** [_getCommitSha], lines 413-432. *)
Definition _getCommitSha (this : GitlabScm) (scmUri token : string)
  : M (promise jsval) :=
  '(scmHost, scmId, scmBranch) <- lift (decodeScmUri scmUri) ;;
  let requestOptions :=
    VObj (request "GET" token
            (api this ("projects/" ++ field_string scmId
                         ++ "/repository/branches/" ++ field_string scmBranch))) in
  settled <- runCommand (this_get this "breaker") requestOptions ;;
  then_ settled (fun response =>
    _ <- lift (checkResponseError response) ;;
    commit <- lift (get_member (body response) "commit") ;;
    id <- lift (get_member commit "id") ;;
    resolve id).

(** The [requestOptions] of [_updateCommitStatus], lines 447-463. *)
Definition statusRequest (this : GitlabScm) (scmUri sha buildStatus token : string)
    (jobName : option string) (url : string) : outcome jsval :=
  obind (decodeScmUri scmUri) (fun '(scmHost, scmId, scmBranch) =>
  let context :=
    if given jobName then "Screwdriver/" ++ field_string jobName
    else "Screwdriver" in
  Returned (VObj
    (request "POST" token
       (api this ("projects/" ++ field_string scmId ++ "/statuses/" ++ sha))
     ++ [ ("qs", VObj
            [ ("context", VStr context);
              ("description", object_get DESCRIPTION_MAP buildStatus);
              ("state",
               if truthy (object_get STATE_MAP buildStatus)
               then object_get STATE_MAP buildStatus
               else VStr "failure");
              ("target_url", VStr url) ]) ])%list)).

(** [_updateCommitStatus], lines 446-466. *)
Definition _updateCommitStatus (this : GitlabScm)
    (scmUri sha buildStatus token : string) (jobName : option string)
    (url : string) : M (promise response) :=
  requestOptions <- lift (statusRequest this scmUri sha buildStatus token jobName url) ;;
  call (this_get this "breaker") "this.breaker" requestOptions.

(** The [requestOptions] of [_getFile], lines 480-493.  [scmInfo] is not
    declared anywhere in the module, so evaluating it throws. *)
Definition fileRequest (this : GitlabScm) (scmUri path token : string)
    (ref : option string) : outcome jsval :=
  obind (decodeScmUri scmUri) (fun '(scmHost, scmId, scmBranch) =>
  obind (if given ref then Returned (optional ref)
         else Thrown (ReferenceError "scmInfo is not defined")) (fun ref =>
  Returned (VObj
    (request "GET" token
       (api this ("projects/" ++ field_string scmId ++ "/repository/files"))
     ++ [ ("qs", VObj [ ("file_path", VStr path); ("ref", ref) ]) ])%list))).

(** [_getFile], lines 479-501: the chain is built and dropped, the method
    has no [return]. *)
Definition _getFile (this : GitlabScm) (scmUri path token : string)
    (ref : option string) : M jsval :=
  requestOptions <- lift (fileRequest this scmUri path token ref) ;;
  settled <- call (this_get this "breaker") "this.breaker" requestOptions ;;
  _ <- then_ settled (fun response =>
         _ <- lift (checkResponseError response) ;;
         content <- lift (get_member (body response) "content") ;;
         encoding <- lift (get_member (body response) "encoding") ;;
         text <- lift (Buffer_toString content encoding) ;;
         resolve text) ;;
  ret VUndefined.

End Methods.

(** ** Predicates and sample data used by the statements *)

(** No colon in a field. *)
Definition colon_free (s : string) : bool :=
  all_chars (fun c => negb (Ascii.eqb c ":")) s.

(** A key that an array, a function or [Object.prototype] does not answer
    to by itself. *)
Definition plain_key (k : string) : bool :=
  negb (object_has [] k)
  && match key_index k with Some _ => false | None => true end
  && negb (String.eqb k "length")
  && negb (String.eqb k "name").

(** The [qs] entry [k] of a request. *)
Definition qs (request : jsval) (k : string) : jsval :=
  get_property (get_property request "qs") k.

(** A request for a user profile. *)
Definition author_request (this : GitlabScm) (token : string) (login : jsval)
  : jsval :=
  VObj (request "GET" token (api this ("users/username=" ++ to_string login))).

(** A GitLab that answers every request with a server error. *)
Definition failing_Request : trace -> jsval -> promise response :=
  fun _ _ => Fulfilled (mkResponse 500 (VObj [("message", VStr "500 Internal Server Error")]) []).

(** A GitLab that knows project 42 as [group/proj] and answers the commit
    lookup with a commit that names no author. *)
Definition sample_Request : trace -> jsval -> promise response :=
  fun tr _ =>
    match tr with
    | [] => Fulfilled (mkResponse 200
                         (VObj [("id", VNum 42);
                                ("path_with_namespace", VStr "group/proj")]) [])
    | _ => Fulfilled (mkResponse 200 VNull
                        [("commit", VObj [("message", VStr "fix typo")]);
                         ("html_url",
                          VStr "https://gitlab.example.com/group/proj/commit/abc123")])
    end.

Definition sample_options : options :=
  {| opt_gitlabProtocol := None;
     opt_gitlabHost := Some "gitlab.example.com";
     opt_username := None;
     opt_email := None;
     opt_https := None;
     opt_oauthClientId := Some "client";
     opt_oauthClientSecret := Some "secret";
     opt_fusebox := None |}.

Definition sample_config : Config :=
  {| gitlabProtocol := "https";
     gitlabHost := Some "gitlab.example.com";
     cfg_username := "sd-buildbot";
     email := "dev-null@screwdriver.cd";
     https := false;
     oauthClientId := "client";
     oauthClientSecret := "secret";
     fusebox := VObj [] |}.

(** The instance the constructor builds from [sample_options]. *)
Definition sample_this (Request : trace -> jsval -> promise response) : GitlabScm :=
  {| config := sample_config;
     properties := [("breaker", mkBreaker Request (VObj []))] |}.

(** The same instance after [this.Breaker = this.breaker], as a test
    harness would patch it. *)
Definition patched_this (Request : trace -> jsval -> promise response) : GitlabScm :=
  {| config := sample_config;
     properties := [("breaker", mkBreaker Request (VObj []));
                    ("Breaker", mkBreaker Request (VObj []))] |}.

Definition sample_Buffer_toString : jsval -> jsval -> outcome string :=
  fun content _ => Returned (to_string content).

(** ** Methods without a breaker call *)

(** [s.replace(pattern, replacement)] with a string pattern: the first
    occurrence only. *)
Definition replace (pattern replacement s : string) : string :=
  match index 0 pattern s with
  | Some i =>
      substring 0 i s ++ replacement
        ++ substring (i + String.length pattern)
             (String.length s - (i + String.length pattern)) s
  | None => s
  end.

(** The steps every checkout runs, lines 232-244, for a repository URL and
    the ref to reset to. *)
Definition checkoutSteps (this : GitlabScm) (checkoutUrl branch checkoutRef : string)
  : list string :=
  [ "echo Cloning " ++ checkoutUrl ++ ", on branch " ++ branch;
    "export SCM_URL=" ++ checkoutUrl;
    "if [ ! -z $SCM_USERNAME ] && [ ! -z $SCM_ACCESS_TOKEN ]; then "
      ++ "SCM_URL=" ++ quoted "$SCM_USERNAME:$SCM_ACCESS_TOKEN@$SCM_URL" ++ "; fi";
    "git clone --quiet --progress --branch " ++ branch ++ " "
      ++ "https://$SCM_URL $SD_SOURCE_DIR";
    "git reset --hard " ++ checkoutRef;
    "echo Reset to " ++ checkoutRef;
    "echo Setting user name and user email";
    "git config user.name " ++ cfg_username (config this);
    "git config user.email " ++ email (config this) ].

(** The steps added for a pull request, lines 247-255. *)
Definition pullRequestSteps (branch sha prRef : string) : list string :=
  let prRef := replace "merge" "head:pr" prRef in
  [ "echo Fetching PR and merging with " ++ branch;
    "git fetch origin " ++ prRef;
    "git merge --no-edit " ++ sha ].

(** The array [command] of [_getCheckoutCommand]. *)
Definition checkoutCommand (this : GitlabScm) (branch host org repo sha : string)
    (prRef : option string) : list string :=
  let checkoutUrl := host ++ "/" ++ org ++ "/" ++ repo in
  let checkoutRef := if given prRef then branch else sha in
  (checkoutSteps this checkoutUrl branch checkoutRef
     ++ (if given prRef then pullRequestSteps branch sha (field_string prRef)
         else []))%list.

(** [_getCheckoutCommand], lines 226-261. *)
Definition _getCheckoutCommand (this : GitlabScm) (branch host org repo sha : string)
    (prRef : option string) : M (promise jsval) :=
  resolve (VObj [ ("name", VStr "sd-checkout-code");
                  ("command",
                   VStr (join " && "
                           (checkoutCommand this branch host org repo sha prRef))) ]).

(** [_getBellConfiguration], lines 509-525. *)
Definition _getBellConfiguration (this : GitlabScm) : M (promise jsval) :=
  let bellConfig :=
    [ ("provider", VStr "gitlab");
      ("clientId", VStr (oauthClientId (config this)));
      ("clientSecret", VStr (oauthClientSecret (config this)));
      ("isSecure", VBool (https (config this)));
      ("forceHttps", VBool (https (config this))) ] in
  resolve (VObj
    (bellConfig
       ++ (if given (gitlabHost (config this))
           then [ ("config",
                   VObj [ ("uri", VStr (gitlabProtocol (config this) ++ "://"
                                          ++ field_string (gitlabHost (config this)))) ]) ]
           else []))%list).

(** ** Further predicates used by the statements *)

(** No occurrence of the separator in a field. *)
Definition free_of (sep : ascii) (s : string) : bool :=
  all_chars (fun c => negb (Ascii.eqb c sep)) s.

(** The status codes [checkResponseError] lets through. *)
Definition accepted (r : response) : Prop := 200 <= statusCode r < 300.

(** What Joi accepts for an optional string: absent, or not empty. *)
Definition optional_ok (v : option string) : Prop := v <> Some EmptyString.

(** What Joi accepts for an optional object: absent, or an object. *)
Definition object_ok (v : option jsval) : Prop :=
  v = None \/ exists props, v = Some (VObj props).


(** The requests the methods hand to the breaker. *)
Definition project_request (this : GitlabScm) (token projectId : string) : jsval :=
  VObj (request "GET" token (api this ("projects/" ++ projectId))).

Definition namespace_request (this : GitlabScm) (token namespace name : string)
  : jsval :=
  VObj (request "GET" token (api this ("projects/" ++ namespace ++ "%2F" ++ name))).

Definition branch_request (this : GitlabScm) (token projectId branch : string)
  : jsval :=
  VObj (request "GET" token
          (api this ("projects/" ++ projectId ++ "/repository/branches/" ++ branch))).

(** A [GET] request that carries the caller's token as bearer. *)
Definition bearer_request (token : string) (r : jsval) : Prop :=
  exists url, r = VObj (request "GET" token url).

(** What a call did to the trace [tr] of breaker calls: nothing, or one
    more [GET] request with the caller's token; nothing if it threw. *)
Definition at_most_one_request {A : Type} (token : string) (tr : trace)
    (result : outcome A * trace) : Prop :=
  (snd result = tr
   \/ exists r, snd result = (tr ++ [r])%list /\ bearer_request token r)
  /\ forall e, fst result = Thrown e -> snd result = tr.

(** A namespaced path [owner/name], possibly with further segments. *)
Definition namespaced (owner name : string) (deeper : option string) : string :=
  owner ++ "/" ++ name
    ++ match deeper with
       | Some segments => "/" ++ segments
       | None => EmptyString
       end.

(** A GitLab that answers every request with the same response. *)
Definition constant_Request (r : response) : trace -> jsval -> promise response :=
  fun _ _ => Fulfilled r.

Definition sample_project : response :=
  mkResponse 200
    (VObj [("id", VNum 42); ("path_with_namespace", VStr "group/proj")]) [].

Definition sample_branch : response :=
  mkResponse 200
    (VObj [("name", VStr "master");
           ("commit", VObj [("id", VStr "abc123")])]) [].

Definition sample_user : response :=
  mkResponse 200
    (VObj [("avatar_url", VStr "https://gitlab.example.com/avatar.png");
           ("name", VStr "Jane Doe");
           ("username", VStr "jdoe");
           ("web_url", VStr "https://gitlab.example.com/jdoe")]) [].

(** A GitLab that knows project 42 and answers the commit lookup with a
    404 that still carries commit data. *)
Definition sample_missing_commit : response :=
  mkResponse 404 VNull
    [("commit", VObj [("message", VStr "fix typo")]);
     ("html_url", VStr "https://gitlab.example.com/group/proj/commit/abc123")].

Definition unvalidated_Request : trace -> jsval -> promise response :=
  fun tr _ =>
    match tr with
    | [] => Fulfilled sample_project
    | _ => Fulfilled sample_missing_commit
    end.

Definition failure_response : response :=
  mkResponse 500 (VObj [("message", VStr "500 Internal Server Error")]) [].

(** Unfolds the plumbing of [M] in a goal. *)
Ltac run := unfold resolve, bind, lift, ret, throw, then_, call, runCommand.

(** Case analysis on every scrutinee left in a goal once [run] is done. *)
Ltac settle :=
  repeat match goal with
         | |- _ => progress cbv beta iota
         | |- context [match ?x with _ => _ end] =>
             lazymatch x with
             | context [match _ with _ => _ end] => fail
             | _ => destruct x
             end
         end.

(** Closes a goal [at_most_one_request] on an evaluated call. *)
Ltac one_request :=
  unfold at_most_one_request, bearer_request; cbn [fst snd];
  split;
  [ first [ left; reflexivity
          | right; eexists; split; [reflexivity | eexists; reflexivity] ]
  | intros ? ?; first [reflexivity | discriminate] ].

(** * Properties *)

(** ** The response validator *)

Lemma reach_from_json_path (default : jsval) (path : list string) :
  forallb plain_key path = true ->
  forall v,
    reach_from v path default =
    match json_path v path with
    | Some x => x
    | None => default
    end.
Proof.
  induction path as [|key rest IH]; intros Hplain v; [reflexivity|].
  simpl in Hplain. apply andb_prop in Hplain as [Hkey Hrest].
  unfold plain_key in Hkey.
  apply andb_prop in Hkey as [Hkey Hname].
  apply andb_prop in Hkey as [Hkey Hlength].
  apply andb_prop in Hkey as [Hproto Hindex].
  apply negb_true_iff in Hproto, Hname, Hlength.
  destruct (key_index key) eqn:Hidx; [discriminate|].
  destruct v; cbn [reach_from truthy has_property negb orb json_path];
    rewrite ?orb_true_r; try reflexivity.
  - (* an array: no such index, no such property *)
    rewrite Hidx, Hlength, Hproto. reflexivity.
  - (* an object: the own property decides *)
    cbn [get_property]. unfold object_has, object_get.
    destruct (assoc key props) as [x|] eqn:Hown.
    + simpl. apply IH, Hrest.
    + unfold object_has in Hproto. cbn [assoc] in Hproto.
      rewrite Hproto. reflexivity.
  - (* a built-in function *)
    rewrite Hname, Hproto. reflexivity.
Qed.

Lemma reach_body (response : response) (path : list string) (default : jsval) :
  forallb plain_key path = true ->
  reach_from (response_value response) ("body" :: path) default =
  match json_path (body response) path with
  | Some x => x
  | None => default
  end.
Proof.
  intros Hplain. 
  change (reach_from (response_value response) ("body" :: path) default)
    with (reach_from (body response) path default).
  apply reach_from_json_path, Hplain.
Qed.

(** C1: [checkResponseError] returns without throwing exactly when the
    status code is in [200, 300).  Outside that range it throws an error
    whose message is the error message, the word Reason and the quoted
    error reason; the error message is [body.error.message] when that
    field is there and [SCM service unavailable (<statusCode>).] when it is
    not; the error reason is [body.error.detail.required] when that field
    is there and the JSON-stringified body when it is not. *)
Theorem checkResponseError_spec (response : response) :
  (checkResponseError response = Returned tt
   <-> 200 <= statusCode response < 300)
  /\ (~ 200 <= statusCode response < 300 ->
      exists errorMessage errorReason : string,
        checkResponseError response
        = Thrown (Error (errorMessage ++ " Reason " ++ dquote ++ errorReason ++ dquote))
        /\ errorMessage
           = match json_path (body response) ["error"; "message"] with
             | Some v => to_string v
             | None => "SCM service unavailable ("
                         ++ string_of_Z (statusCode response) ++ ")."
             end
        /\ errorReason
           = match json_path (body response) ["error"; "detail"; "required"] with
             | Some v => to_string v
             | None => to_string (JSON_stringify (body response))
             end).
Proof.
  unfold checkResponseError.
  destruct ((200 <=? statusCode response) && (statusCode response <? 300)) eqn:Hrange.
  - apply andb_prop in Hrange as [Hlo Hhi].
    apply Z.leb_le in Hlo. apply Z.ltb_lt in Hhi.
    split; [split; auto|]. intros Hout. exfalso. apply Hout. split; assumption.
  - assert (Hout : ~ 200 <= statusCode response < 300).
    { intros [Hlo Hhi]. apply Z.leb_le in Hlo. apply Z.ltb_lt in Hhi.
      rewrite Hlo, Hhi in Hrange. discriminate. }
    split; [split; [discriminate | intros Hin; contradiction]|].
    intros _. unfold Hoek_reach.
    change (split "." "body.error.message") with ["body"; "error"; "message"].
    change (split "." "body.error.detail.required")
      with ["body"; "error"; "detail"; "required"].
    rewrite !reach_body by reflexivity.
    eexists. eexists. split; [reflexivity|]. 
    split.
    + destruct (json_path (body response) ["error"; "message"]); reflexivity.
    + destruct (json_path (body response) ["error"; "detail"; "required"]);
        reflexivity.
Qed.

(** ** The SCM URI codec *)

Lemma split_colon_free (s : string) :
  colon_free s = true -> split ":" s = [s].
Proof.
  induction s as [|c s IH]; [reflexivity|].
  unfold colon_free. simpl. intros H. apply andb_prop in H as [Hc Hs].
  apply negb_true_iff in Hc. rewrite Hc.
  fold (colon_free s) in Hs. rewrite (IH Hs). reflexivity.
Qed.

Lemma split_field (field rest : string) :
  colon_free field = true ->
  split ":" (field ++ ":" ++ rest) = field :: split ":" rest.
Proof.
  induction field as [|c field IH]; [reflexivity|].
  unfold colon_free. simpl. intros H. apply andb_prop in H as [Hc Hs].
  apply negb_true_iff in Hc. rewrite Hc.
  fold (colon_free field) in Hs. 
  change (split ":" (field ++ String ":" rest))
    with (split ":" (field ++ ":" ++ rest)).
  rewrite (IH Hs). reflexivity.
Qed.

Lemma split_nonempty (sep : ascii) (s : string) : split sep s <> [].
Proof.
  destruct s as [|c s]; simpl; [discriminate|].
  destruct (Ascii.eqb c sep); [discriminate|].
  destruct (split sep s); discriminate.
Qed.

(** C2: encoding a triple of colon-free fields as an SCM URI and decoding
    it again gives the triple back.  The fields need not even be
    non-empty. *)
Theorem decode_encode_ScmUri (host projectId branch : string) :
  host <> EmptyString -> projectId <> EmptyString -> branch <> EmptyString ->
  colon_free host = true ->
  colon_free projectId = true ->
  colon_free branch = true ->
  decodeScmUri (encodeScmUri host projectId branch)
  = Returned (Some host, Some projectId, Some branch).
Proof.
  intros _ _ _ Hhost Hid Hbranch.
  unfold decodeScmUri, encodeScmUri.
  rewrite (split_field host _ Hhost), (split_field projectId _ Hid),
    (split_colon_free branch Hbranch).
  reflexivity.
Qed.

Lemma decode_encode_ScmUri_witness :
  decodeScmUri (encodeScmUri "gitlab.example.com" "42" "dev")
  = Returned (Some "gitlab.example.com", Some "42", Some "dev").
Proof.
  apply decode_encode_ScmUri; (discriminate || reflexivity).
Defined.



(** ** Checkout URLs *)

Section CheckoutUrlFacts.

Variable CHECKOUT_URL_exec : string -> option (list (option string)).

(** A URL whose match carries the [#branchRef] group parses, and the
    branch is that group without its first character. *)
Lemma getRepoInfo_branch (checkoutUrl : string) (matched : list (option string))
    (branchRef : string) :
  CHECKOUT_URL_exec checkoutUrl = Some matched ->
  group matched MATCH_COMPONENT_BRANCH = Some branchRef ->
  exists info,
    getRepoInfo CHECKOUT_URL_exec checkoutUrl = Returned info
    /\ branch info = slice1 branchRef.
Proof.
  intros Hexec Hgroup. unfold getRepoInfo. rewrite Hexec, Hgroup.
  eexists. split; reflexivity.
Qed.

(** A URL whose match lacks the [#branchRef] group does not parse. *)
Lemma getRepoInfo_no_branch (checkoutUrl : string) (matched : list (option string)) :
  CHECKOUT_URL_exec checkoutUrl = Some matched ->
  group matched MATCH_COMPONENT_BRANCH = None ->
  getRepoInfo CHECKOUT_URL_exec checkoutUrl
  = Thrown (TypeError "Cannot read property 'slice' of undefined").
Proof.
  intros Hexec Hgroup. unfold getRepoInfo. rewrite Hexec, Hgroup. reflexivity.
Qed.

(** C4, as the code has it: a checkout URL the pattern does not match makes
    [getRepoInfo] throw, and what it throws is the [TypeError] of reading
    index 1 of the [null] match; the module has no error type of its
    own. *)
Theorem getRepoInfo_unmatched (checkoutUrl : string) :
  CHECKOUT_URL_exec checkoutUrl = None ->
  getRepoInfo CHECKOUT_URL_exec checkoutUrl
  = Thrown (TypeError "Cannot read property '1' of null").
Proof.
  intros Hexec. unfold getRepoInfo. rewrite Hexec. reflexivity.
Qed.

End CheckoutUrlFacts.

Lemma getRepoInfo_unmatched_witness :
  getRepoInfo spec_CHECKOUT_URL_exec "gitlab.example.com"
  = Thrown (TypeError "Cannot read property '1' of null").
Proof.
  apply getRepoInfo_unmatched. reflexivity.
Defined.

(** C4, refuted as stated: on a string that is no checkout URL the parse
    dies of the null dereference the claim rules out. *)
Lemma getRepoInfo_null_dereference :
  spec_CHECKOUT_URL_exec "not a checkout url" = None
  /\ getRepoInfo spec_CHECKOUT_URL_exec "not a checkout url"
     = Thrown (TypeError "Cannot read property '1' of null").
Proof.
  split; reflexivity.
Qed.

(** C5, at the failing input: a checkout URL without [#branchRef] matches
    the pattern, and instead of falling back to a default branch
    [getRepoInfo] throws; with the suffix the branch is what follows
    [#]. *)
Theorem getRepoInfo_without_branch :
  spec_CHECKOUT_URL_exec "https://gitlab.example.com/group/proj"
  = Some [ Some "https://gitlab.example.com/group/proj";
           Some "gitlab.example.com"; Some "group"; Some "proj"; None ]
  /\ getRepoInfo spec_CHECKOUT_URL_exec "https://gitlab.example.com/group/proj"
     = Thrown (TypeError "Cannot read property 'slice' of undefined")
  /\ getRepoInfo spec_CHECKOUT_URL_exec "https://gitlab.example.com/group/proj#dev"
     = Returned {| hostname := Some "gitlab.example.com";
                   repo := Some "proj";
                   branch := "dev";
                   username := Some "group" |}.
Proof.
  repeat split; reflexivity.
Qed.

(** ** Calls through the breaker *)

(** Calling [this.breaker] as a function throws whatever the instance. *)
Lemma updateCommitStatus_throws (this : GitlabScm)
    (scmUri sha buildStatus token : string) (jobName : option string)
    (url : string) (tr : trace) :
  _updateCommitStatus this scmUri sha buildStatus token jobName url tr
  = (Thrown (TypeError "this.breaker is not a function"), tr).
Proof.
  unfold _updateCommitStatus, statusRequest, decodeScmUri. run. reflexivity.
Qed.

Lemma getFile_throws (Buffer_toString : jsval -> jsval -> outcome string)
    (this : GitlabScm) (scmUri path token : string) (ref : option string)
    (tr : trace) :
  _getFile Buffer_toString this scmUri path token ref tr
  = (Thrown (if given ref
             then TypeError "this.breaker is not a function"
             else ReferenceError "scmInfo is not defined"), tr).
Proof.
  unfold _getFile, fileRequest, decodeScmUri. run. cbn [obind].
  destruct (given ref); reflexivity.
Qed.

(** The state sent for a build status. *)
Lemma state_of_buildStatus (buildStatus : string) :
  let state := if truthy (object_get STATE_MAP buildStatus)
               then object_get STATE_MAP buildStatus
               else VStr "failure" in
  (buildStatus = "SUCCESS" -> state = VStr "success")
  /\ (buildStatus = "RUNNING" \/ buildStatus = "QUEUED" -> state = VStr "pending")
  /\ (buildStatus <> "SUCCESS" -> buildStatus <> "RUNNING" ->
      buildStatus <> "QUEUED" -> object_has [] buildStatus = false ->
      state = VStr "failure").
Proof.
  cbv zeta. split; [intros ->; reflexivity|].
  split; [intros [->| ->]; reflexivity|].
  intros Hs Hr Hq Hproto.
  apply String.eqb_neq in Hs, Hr, Hq.
  unfold object_get, STATE_MAP. cbn [assoc]. rewrite Hs, Hr, Hq.
  unfold object_has in Hproto. cbn [assoc] in Hproto.
  apply orb_false_elim in Hproto as [Hfun Hobj].
  unfold inherited. rewrite Hfun, Hobj. reflexivity.
Qed.

(** C6: the request options that [_updateCommitStatus] builds carry the
    state, the description and the context label the claim names (an
    unrecognised status maps to [failure] unless it names a property every
    object inherits), but no call hands them to the provider: calling
    [this.breaker] as a function throws, and the trace of breaker calls is
    left as it was. *)
Theorem updateCommitStatus_request_not_sent (this : GitlabScm)
    (scmUri sha buildStatus token : string) (jobName : option string)
    (url : string) (tr : trace) :
  _updateCommitStatus this scmUri sha buildStatus token jobName url tr
  = (Thrown (TypeError "this.breaker is not a function"), tr)
  /\ exists requestOptions,
       statusRequest this scmUri sha buildStatus token jobName url
       = Returned requestOptions
       /\ (buildStatus = "SUCCESS" ->
           qs requestOptions "state" = VStr "success"
           /\ qs requestOptions "description" = VStr "Everything looks good!")
       /\ (buildStatus = "RUNNING" \/ buildStatus = "QUEUED" ->
           qs requestOptions "state" = VStr "pending")
       /\ (buildStatus <> "SUCCESS" -> buildStatus <> "RUNNING" ->
           buildStatus <> "QUEUED" -> object_has [] buildStatus = false ->
           qs requestOptions "state" = VStr "failure")
       /\ qs requestOptions "description" = object_get DESCRIPTION_MAP buildStatus
       /\ (forall name, jobName = Some name -> name <> EmptyString ->
           qs requestOptions "context" = VStr ("Screwdriver/" ++ name))
       /\ (jobName = None -> qs requestOptions "context" = VStr "Screwdriver").
Proof.
  split; [apply updateCommitStatus_throws|].
  unfold statusRequest, decodeScmUri. cbn [obind].
  eexists. split; [reflexivity|].
  destruct (state_of_buildStatus buildStatus) as (Hsuccess & Hpending & Hfailure).
  cbv zeta in Hsuccess, Hpending, Hfailure.
  split; [intros Hs; split; [exact (Hsuccess Hs) | subst; reflexivity]|].
  split; [exact Hpending|]. split; [exact Hfailure|].
  split; [reflexivity|].
  split.
  - intros name -> Hname. unfold qs. cbn.
    apply String.eqb_neq in Hname. rewrite Hname. reflexivity.
  - intros ->. reflexivity.
Qed.

(** ** [lookupScmUri] and what builds on it *)

Lemma lookupScmUri_without_Breaker (this : GitlabScm) (scmUri token : string)
    (tr : trace) :
  this_get this "Breaker" = None ->
  lookupScmUri this scmUri token tr
  = (Thrown (TypeError "Cannot read property 'runCommand' of undefined"), tr).
Proof.
  intros Hnone. unfold lookupScmUri, decodeScmUri. run. rewrite Hnone. reflexivity.
Qed.

Lemma constructor_properties (Request : trace -> jsval -> promise response)
    (o : options) (this : GitlabScm) :
  constructor Request o = Returned this ->
  properties this = [("breaker", mkBreaker Request (fusebox (config this)))].
Proof.
  unfold constructor. destruct (Joi_attempt o) as [c|e]; cbn [obind]; intros H.
  - injection H as <-. reflexivity.
  - discriminate.
Qed.

(** C9: the constructor assigns [this.breaker] and never [this.Breaker],
    so on every instance it builds [lookupScmUri] throws a [TypeError] for
    every input, and so do [_decorateUrl] and [_decorateCommit], which call
    it first; the trace of breaker calls is unchanged, no request is
    attempted. *)
Theorem lookupScmUri_always_throws (Request : trace -> jsval -> promise response)
    (o : options) (this : GitlabScm) :
  constructor Request o = Returned this ->
  this_get this "Breaker" = None
  /\ forall (validate_decorateAuthor : string -> jsval -> outcome (string * jsval))
            (validate_user : jsval -> outcome jsval)
            (scmUri sha token : string) (tr : trace),
       lookupScmUri this scmUri token tr
       = (Thrown (TypeError "Cannot read property 'runCommand' of undefined"), tr)
       /\ _decorateUrl this scmUri token tr
          = (Thrown (TypeError "Cannot read property 'runCommand' of undefined"), tr)
       /\ _decorateCommit validate_decorateAuthor validate_user this scmUri sha token tr
          = (Thrown (TypeError "Cannot read property 'runCommand' of undefined"), tr).
Proof.
  intros Hnew. apply constructor_properties in Hnew.
  assert (Hnone : this_get this "Breaker" = None).
  { unfold this_get. rewrite Hnew. reflexivity. }
  split; [exact Hnone|].
  intros validate_decorateAuthor validate_user scmUri sha token tr.
  pose proof (lookupScmUri_without_Breaker this scmUri token tr Hnone) as Hlookup.
  split; [exact Hlookup|]. split.
  - unfold _decorateUrl, bind. rewrite Hlookup. reflexivity.
  - unfold _decorateCommit, commitLookup, bind. rewrite Hlookup. reflexivity.
Qed.

Lemma lookupScmUri_always_throws_witness :
  this_get (sample_this sample_Request) "Breaker" = None
  /\ forall (validate_decorateAuthor : string -> jsval -> outcome (string * jsval))
            (validate_user : jsval -> outcome jsval)
            (scmUri sha token : string) (tr : trace),
       lookupScmUri (sample_this sample_Request) scmUri token tr
       = (Thrown (TypeError "Cannot read property 'runCommand' of undefined"), tr)
       /\ _decorateUrl (sample_this sample_Request) scmUri token tr
          = (Thrown (TypeError "Cannot read property 'runCommand' of undefined"), tr)
       /\ _decorateCommit validate_decorateAuthor validate_user
            (sample_this sample_Request) scmUri sha token tr
          = (Thrown (TypeError "Cannot read property 'runCommand' of undefined"), tr).
Proof.
  apply (lookupScmUri_always_throws sample_Request sample_options).
  reflexivity.
Defined.

(** ** [_getFile] *)

(** C10, refuted as stated: called without a [ref], [_getFile] does not
    return [undefined], it throws on the undeclared [scmInfo]. *)
Lemma getFile_without_ref :
  constructor sample_Request sample_options = Returned (sample_this sample_Request)
  /\ _getFile sample_Buffer_toString (sample_this sample_Request)
       "gitlab.example.com:42:master" "screwdriver.yaml" "token" None []
     = (Thrown (ReferenceError "scmInfo is not defined"), [])
  /\ forall tr, _getFile sample_Buffer_toString (sample_this sample_Request)
                  "gitlab.example.com:42:master" "screwdriver.yaml" "token" None []
                <> (Returned VUndefined, tr).
Proof.
  split; [reflexivity|]. split; [reflexivity|]. intros tr. discriminate.
Qed.

(** C10, as the code has it: [_getFile] never returns, neither [undefined]
    nor a promise.  It throws synchronously, a [ReferenceError] for the
    undeclared [scmInfo] when no [ref] is given (or an empty one), else a
    [TypeError] because [this.breaker] is called as a function; the
    breaker is never called, so the chain that validates and decodes the
    response is never built. *)
Theorem getFile_never_returns (Buffer_toString : jsval -> jsval -> outcome string)
    (this : GitlabScm) (scmUri path token : string) (ref : option string)
    (tr : trace) :
  _getFile Buffer_toString this scmUri path token ref tr
  = (Thrown (if given ref
             then TypeError "this.breaker is not a function"
             else ReferenceError "scmInfo is not defined"), tr)
  /\ forall v tr', _getFile Buffer_toString this scmUri path token ref tr
                   <> (Returned v, tr').
Proof.
  pose proof (getFile_throws Buffer_toString this scmUri path token ref tr) as H.
  split; [exact H|]. intros v tr'. rewrite H. discriminate.
Qed.

(** ** [_decorateCommit] *)

(** C7, at the failing input: on the instance the constructor builds, and
    against a GitLab that would answer the commit lookup with a commit
    without author, [_decorateCommit] never gets to the author: it throws
    on [this.Breaker] inside [lookupScmUri], before any request, whatever
    the validations of the inherited [decorateAuthor] are.  Neither the
    default author nor any other result is delivered. *)
Theorem decorateCommit_never_reaches_author :
  constructor sample_Request sample_options = Returned (sample_this sample_Request)
  /\ forall (validate_decorateAuthor : string -> jsval -> outcome (string * jsval))
            (validate_user : jsval -> outcome jsval),
       _decorateCommit validate_decorateAuthor validate_user
         (sample_this sample_Request)
         "gitlab.example.com:42:master" "abc123" "token" []
       = (Thrown (TypeError "Cannot read property 'runCommand' of undefined"), []).
Proof.
  split; [reflexivity|]. intros validate_decorateAuthor validate_user.
  unfold _decorateCommit, commitLookup, bind.
  rewrite lookupScmUri_without_Breaker by reflexivity. reflexivity.
Qed.

(** ** Validation after the breaker call *)

Section Validation.

Variable CHECKOUT_URL_exec : string -> option (list (option string)).
Variable this : GitlabScm.
Variable b : Breaker.
Variable failure : response.
Variable e : js_error.

Hypothesis this_breaker : this_get this "breaker" = Some b.
Hypothesis always_fails : forall tr request, command b tr request = Fulfilled failure.
Hypothesis refused : checkResponseError failure = Thrown e.

(** The operations that call [runCommand] and validate in the callback
    turn a refused response into a rejected promise. *)
Lemma validated_operations_reject (checkoutUrl scmUri token : string)
    (login : jsval) (tr : trace) :
  (forall info,
     getRepoInfo CHECKOUT_URL_exec checkoutUrl = Returned info ->
     exists request,
       _parseUrl CHECKOUT_URL_exec this checkoutUrl token tr
       = (Returned (Rejected e), (tr ++ [request])%list))
  /\ (exists request,
        _decorateAuthor this token login tr
        = (Returned (Rejected e), (tr ++ [request])%list))
  /\ (exists request,
        _getPermissions this scmUri token tr
        = (Returned (Rejected e), (tr ++ [request])%list))
  /\ (exists request,
        _getCommitSha this scmUri token tr
        = (Returned (Rejected e), (tr ++ [request])%list)).
Proof.
  repeat split.
  - intros info Hinfo. unfold _parseUrl. run.
    rewrite Hinfo, this_breaker, always_fails, refused. eauto.
  - unfold _decorateAuthor. run.
    rewrite this_breaker, always_fails, refused. eauto.
  - unfold _getPermissions, decodeScmUri. run.
    rewrite this_breaker, always_fails, refused. eauto.
  - unfold _getCommitSha, decodeScmUri. run.
    rewrite this_breaker, always_fails, refused. eauto.
Qed.

End Validation.

(** C8, at the failing input: against a GitLab that answers 500 to
    everything, [_getCommitSha] validates the response and yields a
    rejected promise, whereas [_updateCommitStatus], which has no
    validation step, and [_getFile], which drops its chain, yield no
    promise at all: both throw before the breaker is called. *)
Theorem updateCommitStatus_getFile_unvalidated :
  constructor failing_Request sample_options = Returned (sample_this failing_Request)
  /\ _getCommitSha (sample_this failing_Request)
       "gitlab.example.com:42:master" "token" []
     = (Returned (Rejected (Error
          ("SCM service unavailable (500). Reason "
             ++ quoted ("{" ++ quoted "message" ++ ":"
                          ++ quoted "500 Internal Server Error" ++ "}")))),
        [ VObj (request "GET" "token"
            "https://gitlab.example.com/api/v3/projects/42/repository/branches/master") ])
  /\ _updateCommitStatus (sample_this failing_Request)
       "gitlab.example.com:42:master" "abc123" "SUCCESS" "token" (Some "main")
       "https://cd.example.com/builds/1" []
     = (Thrown (TypeError "this.breaker is not a function"), [])
  /\ _getFile sample_Buffer_toString (sample_this failing_Request)
       "gitlab.example.com:42:master" "screwdriver.yaml" "token" (Some "master") []
     = (Thrown (TypeError "this.breaker is not a function"), []).
Proof.
  repeat split; reflexivity.
Qed.

(** * Further properties *)

(** ** Splitting and joining *)

Lemma split_free_of (sep : ascii) (s : string) :
  free_of sep s = true -> split sep s = [s].
Proof.
  induction s as [|c s IH]; [reflexivity|].
  unfold free_of. simpl. intros H. apply andb_prop in H as [Hc Hs].
  apply negb_true_iff in Hc. rewrite Hc.
  fold (free_of sep s) in Hs. rewrite (IH Hs). reflexivity.
Qed.

Lemma split_free_field (sep : ascii) (field rest : string) :
  free_of sep field = true ->
  split sep (field ++ String sep rest) = field :: split sep rest.
Proof.
  induction field as [|c field IH].
  - intros _. simpl. rewrite Ascii.eqb_refl. reflexivity.
  - unfold free_of. simpl. intros H. apply andb_prop in H as [Hc Hs].
    apply negb_true_iff in Hc. rewrite Hc.
    fold (free_of sep field) in Hs. rewrite (IH Hs). reflexivity.
Qed.

Lemma append_assoc (a b c : string) : (a ++ b) ++ c = a ++ (b ++ c).
Proof.
  induction a as [|x a IH]; [reflexivity|]. simpl. rewrite IH. reflexivity.
Qed.

Lemma join_cons (sep field : string) (fields : list string) :
  fields <> [] -> join sep (field :: fields) = field ++ sep ++ join sep fields.
Proof.
  destruct fields; [congruence | reflexivity].
Qed.

(** [s.split(c).join(c)] is [s]. *)
Lemma join_split (sep : ascii) (s : string) :
  join (String sep EmptyString) (split sep s) = s.
Proof.
  induction s as [|c s IH]; [reflexivity|].
  simpl. destruct (Ascii.eqb c sep) eqn:Hc.
  - apply Ascii.eqb_eq in Hc. subst c.
    rewrite join_cons by apply split_nonempty. rewrite IH. reflexivity.
  - destruct (split sep s) as [|field fields] eqn:Hsplit.
    + exfalso. exact (split_nonempty _ _ Hsplit).
    + destruct fields as [|next fields].
      * simpl in IH. simpl. rewrite IH. reflexivity.
      * rewrite join_cons in IH by discriminate.
        rewrite join_cons by discriminate.
        simpl. rewrite <- IH. reflexivity.
Qed.

(** ** More on the SCM URI codec *)

(** X1: an SCM URI of exactly three fields is rebuilt by encoding what
    decoding gives: no character of it is lost. *)
Theorem encode_decode_ScmUri (scmUri : string) :
  List.length (split ":" scmUri) = 3%nat ->
  exists host projectId branch,
    decodeScmUri scmUri = Returned (Some host, Some projectId, Some branch)
    /\ encodeScmUri host projectId branch = scmUri.
Proof.
  intros Hlen. pose proof (join_split ":" scmUri) as Hjoin.
  unfold decodeScmUri, encodeScmUri.
  destruct (split ":" scmUri) as [|host [|projectId [|branch [|extra fields]]]];
    try discriminate.
  exists host, projectId, branch. split; [reflexivity | exact Hjoin].
Qed.

Lemma encode_decode_ScmUri_witness :
  exists host projectId branch,
    decodeScmUri "gitlab.example.com:42:master"
    = Returned (Some host, Some projectId, Some branch)
    /\ encodeScmUri host projectId branch = "gitlab.example.com:42:master".
Proof.
  apply encode_decode_ScmUri. reflexivity.
Defined.

(** X2: fields are joined without escaping, so a colon inside the host
    shifts what decoding reads: for a host with a port, the project id
    comes back as the port and the branch as the project id. *)
Theorem decode_encode_host_with_port (host port projectId branch : string) :
  free_of ":" host = true ->
  free_of ":" port = true ->
  free_of ":" projectId = true ->
  decodeScmUri (encodeScmUri (host ++ ":" ++ port) projectId branch)
  = Returned (Some host, Some port, Some projectId).
Proof.
  intros Hhost Hport Hid. unfold decodeScmUri, encodeScmUri.
  rewrite append_assoc. cbn [append].
  rewrite (split_free_field ":" host _ Hhost), (split_free_field ":" port _ Hport),
    (split_free_field ":" projectId _ Hid).
  reflexivity.
Qed.

Lemma decode_encode_host_with_port_witness :
  decodeScmUri (encodeScmUri ("gitlab.example.com" ++ ":" ++ "8443") "42" "master")
  = Returned (Some "gitlab.example.com", Some "8443", Some "42").
Proof.
  apply decode_encode_host_with_port; reflexivity.
Defined.

(** ** Operations that validate the response *)

Lemma checkResponseError_accepts (r : response) :
  accepted r -> checkResponseError r = Returned tt.
Proof.
  intros [Hlo Hhi]. unfold checkResponseError.
  apply Z.leb_le in Hlo. apply Z.ltb_lt in Hhi. rewrite Hlo, Hhi. reflexivity.
Qed.

Lemma digits_free_of_colon (d : Decimal.uint) :
  free_of ":" (NilEmpty.string_of_uint d) = true.
Proof.
  induction d; simpl; auto.
Qed.

Lemma string_of_Z_free_of_colon (n : Z) : free_of ":" (string_of_Z n) = true.
Proof.
  unfold string_of_Z, NilZero.string_of_int, NilZero.string_of_uint.
  destruct (Z.to_int n) as [d|d]; destruct d;
    first [ reflexivity
          | match goal with
            | |- free_of _ (String _ (NilEmpty.string_of_uint ?d)) = _ =>
                exact (digits_free_of_colon d)
            | |- free_of _ (NilEmpty.string_of_uint ?d) = _ =>
                exact (digits_free_of_colon d)
            end ].
Qed.

(** X3: when the pattern matches the checkout URL with host, namespace,
    name and a [#branch] suffix, and GitLab answers the project lookup with
    an accepted response whose body carries a numeric id, [_parseUrl] makes
    exactly that one request and resolves with [host:id:branch]; if host
    and branch hold no colon, decoding that SCM URI gives the three parts
    back. *)
Theorem parseUrl_resolves
    (CHECKOUT_URL_exec : string -> option (list (option string)))
    (this : GitlabScm) (b : Breaker) (checkoutUrl token : string)
    (matched : list (option string)) (host namespace name branchName : string)
    (response : response) (props : list (string * jsval)) (id : Z)
    (tr : trace) :
  CHECKOUT_URL_exec checkoutUrl = Some matched ->
  group matched MATCH_COMPONENT_HOSTNAME = Some host ->
  group matched MATCH_COMPONENT_USER = Some namespace ->
  group matched MATCH_COMPONENT_REPO = Some name ->
  group matched MATCH_COMPONENT_BRANCH = Some (String "#" branchName) ->
  this_get this "breaker" = Some b ->
  command b tr (namespace_request this token namespace name) = Fulfilled response ->
  accepted response ->
  body response = VObj props ->
  assoc "id" props = Some (VNum id) ->
  _parseUrl CHECKOUT_URL_exec this checkoutUrl token tr
  = (Returned (Fulfilled (host ++ ":" ++ string_of_Z id ++ ":" ++ branchName)),
     (tr ++ [namespace_request this token namespace name])%list)
  /\ (free_of ":" host = true -> free_of ":" branchName = true ->
      decodeScmUri (host ++ ":" ++ string_of_Z id ++ ":" ++ branchName)
      = Returned (Some host, Some (string_of_Z id), Some branchName)).
Proof.
  intros Hexec Hhost Hns Hname Hbranch Hbreaker Hcommand Haccepted Hbody Hid.
  split.
  - unfold _parseUrl, getRepoInfo. rewrite Hexec, Hbranch, Hhost, Hns, Hname.
    run. cbn [hostname repo username branch field_string slice1].
    rewrite Hbreaker.
    fold (namespace_request this token namespace name). rewrite Hcommand.
    rewrite (checkResponseError_accepts _ Haccepted), Hbody.
    cbn [get_member get_property]. unfold object_get. rewrite Hid. reflexivity.
  - intros Hfree_host Hfree_branch. unfold decodeScmUri.
    change (host ++ ":" ++ string_of_Z id ++ ":" ++ branchName)
      with (host ++ String ":" (string_of_Z id ++ String ":" branchName)).
    rewrite (split_free_field ":" host _ Hfree_host),
      (split_free_field ":" _ _ (string_of_Z_free_of_colon id)),
      (split_free_of ":" branchName Hfree_branch).
    reflexivity.
Qed.

Lemma parseUrl_resolves_witness :
  _parseUrl spec_CHECKOUT_URL_exec (sample_this (constant_Request sample_project))
    "https://gitlab.example.com/group/proj#dev" "token" []
  = (Returned (Fulfilled ("gitlab.example.com" ++ ":" ++ string_of_Z 42 ++ ":" ++ "dev")),
     ([] ++ [namespace_request (sample_this (constant_Request sample_project))
               "token" "group" "proj"])%list)
  /\ (free_of ":" "gitlab.example.com" = true -> free_of ":" "dev" = true ->
      decodeScmUri ("gitlab.example.com" ++ ":" ++ string_of_Z 42 ++ ":" ++ "dev")
      = Returned (Some "gitlab.example.com", Some (string_of_Z 42), Some "dev")).
Proof.
  apply (parseUrl_resolves spec_CHECKOUT_URL_exec
           (sample_this (constant_Request sample_project))
           (mkBreaker (constant_Request sample_project) (VObj []))
           "https://gitlab.example.com/group/proj#dev" "token"
           [ Some "https://gitlab.example.com/group/proj#dev";
             Some "gitlab.example.com"; Some "group"; Some "proj"; Some "#dev" ]
           "gitlab.example.com" "group" "proj" "dev" sample_project
           [("id", VNum 42); ("path_with_namespace", VStr "group/proj")] 42 []);
    first [reflexivity | unfold accepted; simpl; lia].
Defined.

Lemma checkResponseError_refuses (r : response) :
  ~ accepted r -> exists reason, checkResponseError r = Thrown (Error reason).
Proof.
  intros Hrefused. unfold checkResponseError.
  destruct ((200 <=? statusCode r) && (statusCode r <? 300)) eqn:Hrange.
  - exfalso. apply Hrefused. apply andb_prop in Hrange as [Hlo Hhi].
    apply Z.leb_le in Hlo. apply Z.ltb_lt in Hhi. split; assumption.
  - eexists. reflexivity.
Qed.

(** X4: when GitLab answers with a status outside [200, 300), each of
    [_parseUrl], [_decorateAuthor], [_getPermissions] and [_getCommitSha]
    makes its one request and resolves with a promise rejected with the
    [Error] of [checkResponseError], whatever the body holds. *)
Theorem refused_response_rejects
    (CHECKOUT_URL_exec : string -> option (list (option string)))
    (this : GitlabScm) (b : Breaker) (checkoutUrl scmUri token : string)
    (login : jsval) (info : repoInfo) (scmHost scmId scmBranch : option string)
    (response : response) (tr : trace) :
  this_get this "breaker" = Some b ->
  (forall request, command b tr request = Fulfilled response) ->
  ~ accepted response ->
  getRepoInfo CHECKOUT_URL_exec checkoutUrl = Returned info ->
  decodeScmUri scmUri = Returned (scmHost, scmId, scmBranch) ->
  exists reason,
    checkResponseError response = Thrown (Error reason)
    /\ _parseUrl CHECKOUT_URL_exec this checkoutUrl token tr
       = (Returned (Rejected (Error reason)),
          (tr ++ [namespace_request this token (field_string (username info))
                    (field_string (repo info))])%list)
    /\ _decorateAuthor this token login tr
       = (Returned (Rejected (Error reason)),
          (tr ++ [author_request this token login])%list)
    /\ _getPermissions this scmUri token tr
       = (Returned (Rejected (Error reason)),
          (tr ++ [project_request this token (field_string scmId)])%list)
    /\ _getCommitSha this scmUri token tr
       = (Returned (Rejected (Error reason)),
          (tr ++ [branch_request this token (field_string scmId)
                    (field_string scmBranch)])%list).
Proof.
  intros Hbreaker Hcommand Hrefused Hinfo Hdecode.
  destruct (checkResponseError_refuses response Hrefused) as [reason Hreason].
  exists reason. split; [exact Hreason|].
  refine (conj _ (conj _ (conj _ _))).
  - unfold _parseUrl. run. rewrite Hinfo, Hbreaker, Hcommand, Hreason. reflexivity.
  - unfold _decorateAuthor. run. rewrite Hbreaker, Hcommand, Hreason. reflexivity.
  - unfold _getPermissions. run.
    rewrite Hdecode, Hbreaker, Hcommand, Hreason. reflexivity.
  - unfold _getCommitSha. run.
    rewrite Hdecode, Hbreaker, Hcommand, Hreason. reflexivity.
Qed.

Lemma refused_response_rejects_witness :
  exists reason,
    checkResponseError failure_response = Thrown (Error reason)
    /\ _parseUrl spec_CHECKOUT_URL_exec (sample_this (constant_Request failure_response))
         "https://gitlab.example.com/group/proj#dev" "token" []
       = (Returned (Rejected (Error reason)),
          ([] ++ [namespace_request (sample_this (constant_Request failure_response))
                    "token" (field_string (Some "group"))
                    (field_string (Some "proj"))])%list)
    /\ _decorateAuthor (sample_this (constant_Request failure_response))
         "token" (VStr "jdoe") []
       = (Returned (Rejected (Error reason)),
          ([] ++ [author_request (sample_this (constant_Request failure_response))
                    "token" (VStr "jdoe")])%list)
    /\ _getPermissions (sample_this (constant_Request failure_response))
         "gitlab.example.com:42:master" "token" []
       = (Returned (Rejected (Error reason)),
          ([] ++ [project_request (sample_this (constant_Request failure_response))
                    "token" (field_string (Some "42"))])%list)
    /\ _getCommitSha (sample_this (constant_Request failure_response))
         "gitlab.example.com:42:master" "token" []
       = (Returned (Rejected (Error reason)),
          ([] ++ [branch_request (sample_this (constant_Request failure_response))
                    "token" (field_string (Some "42"))
                    (field_string (Some "master"))])%list).
Proof.
  apply (refused_response_rejects spec_CHECKOUT_URL_exec
           (sample_this (constant_Request failure_response))
           (mkBreaker (constant_Request failure_response) (VObj []))
           "https://gitlab.example.com/group/proj#dev" "gitlab.example.com:42:master"
           "token" (VStr "jdoe")
           {| hostname := Some "gitlab.example.com";
              repo := Some "proj";
              branch := "dev";
              username := Some "group" |}
           (Some "gitlab.example.com") (Some "42") (Some "master")
           failure_response []);
    first [reflexivity | unfold accepted; simpl; lia].
Defined.

(** X5: [_getPermissions] grants everything.  Whatever the body of an
    accepted response says, it resolves with admin, push and pull all
    true. *)
Theorem getPermissions_grants_all (this : GitlabScm) (b : Breaker)
    (scmUri token : string) (scmHost scmId scmBranch : option string)
    (response : response) (tr : trace) :
  decodeScmUri scmUri = Returned (scmHost, scmId, scmBranch) ->
  this_get this "breaker" = Some b ->
  command b tr (project_request this token (field_string scmId)) = Fulfilled response ->
  accepted response ->
  _getPermissions this scmUri token tr
  = (Returned (Fulfilled (VObj [ ("admin", VBool true);
                                 ("push", VBool true);
                                 ("pull", VBool true) ])),
     (tr ++ [project_request this token (field_string scmId)])%list).
Proof.
  intros Hdecode Hbreaker Hcommand Haccepted.
  unfold _getPermissions. run. rewrite Hdecode, Hbreaker.
  fold (project_request this token (field_string scmId)). rewrite Hcommand.
  rewrite (checkResponseError_accepts _ Haccepted). reflexivity.
Qed.

Lemma getPermissions_grants_all_witness :
  _getPermissions (sample_this (constant_Request sample_project))
    "gitlab.example.com:42:master" "token" []
  = (Returned (Fulfilled (VObj [ ("admin", VBool true);
                                 ("push", VBool true);
                                 ("pull", VBool true) ])),
     ([] ++ [project_request (sample_this (constant_Request sample_project))
               "token" (field_string (Some "42"))])%list).
Proof.
  apply (getPermissions_grants_all (sample_this (constant_Request sample_project))
           (mkBreaker (constant_Request sample_project) (VObj []))
           "gitlab.example.com:42:master" "token"
           (Some "gitlab.example.com") (Some "42") (Some "master") sample_project []);
    first [reflexivity | unfold accepted; simpl; lia].
Defined.

(** X6: on an accepted response [_getCommitSha] resolves with
    [body.commit.id]; when the body is an object without [commit] the
    promise is rejected with the [TypeError] of reading [id] of
    [undefined]. *)
Theorem getCommitSha_resolves (this : GitlabScm) (b : Breaker)
    (scmUri token : string) (scmHost scmId scmBranch : option string)
    (response : response) (props : list (string * jsval)) (tr : trace) :
  decodeScmUri scmUri = Returned (scmHost, scmId, scmBranch) ->
  this_get this "breaker" = Some b ->
  command b tr (branch_request this token (field_string scmId) (field_string scmBranch))
  = Fulfilled response ->
  accepted response ->
  body response = VObj props ->
  exists settled,
    _getCommitSha this scmUri token tr
    = (Returned settled,
       (tr ++ [branch_request this token (field_string scmId)
                 (field_string scmBranch)])%list)
    /\ (forall commit,
          assoc "commit" props = Some (VObj commit) ->
          settled = Fulfilled (object_get commit "id"))
    /\ (assoc "commit" props = None ->
        settled = Rejected (TypeError "Cannot read property 'id' of undefined")).
Proof.
  intros Hdecode Hbreaker Hcommand Haccepted Hbody.
  unfold _getCommitSha. run. rewrite Hdecode, Hbreaker.
  fold (branch_request this token (field_string scmId) (field_string scmBranch)).
  rewrite Hcommand, (checkResponseError_accepts _ Haccepted), Hbody.
  cbn [get_member get_property]. unfold object_get at 1.
  destruct (assoc "commit" props) as [commit|] eqn:Hcommit.
  - destruct (get_member commit "id") as [id|e] eqn:Hid.
    + eexists. split; [reflexivity|]. split; [|discriminate].
      intros c Hc. injection Hc as ->. cbn [get_member get_property] in Hid.
      injection Hid as <-. reflexivity.
    + eexists. split; [reflexivity|]. split; [|discriminate].
      intros c Hc. injection Hc as ->. discriminate.
  - eexists. split; [reflexivity|]. split; [discriminate | reflexivity].
Qed.

Lemma getCommitSha_resolves_witness :
  exists settled,
    _getCommitSha (sample_this (constant_Request sample_branch))
      "gitlab.example.com:42:master" "token" []
    = (Returned settled,
       ([] ++ [branch_request (sample_this (constant_Request sample_branch)) "token"
                 (field_string (Some "42")) (field_string (Some "master"))])%list)
    /\ (forall commit,
          assoc "commit" [("name", VStr "master");
                          ("commit", VObj [("id", VStr "abc123")])]
          = Some (VObj commit) ->
          settled = Fulfilled (object_get commit "id"))
    /\ (assoc "commit" [("name", VStr "master");
                        ("commit", VObj [("id", VStr "abc123")])] = None ->
        settled = Rejected (TypeError "Cannot read property 'id' of undefined")).
Proof.
  apply (getCommitSha_resolves (sample_this (constant_Request sample_branch))
           (mkBreaker (constant_Request sample_branch) (VObj []))
           "gitlab.example.com:42:master" "token"
           (Some "gitlab.example.com") (Some "42") (Some "master") sample_branch);
    first [reflexivity | unfold accepted; simpl; lia].
Defined.

(** X7: an SCM URI of two fields has no branch, and [_getCommitSha] asks
    GitLab all the same, for the branch named [undefined]. *)
Theorem getCommitSha_without_branch (this : GitlabScm) (b : Breaker)
    (host projectId token : string) (tr : trace) :
  free_of ":" host = true ->
  free_of ":" projectId = true ->
  this_get this "breaker" = Some b ->
  exists settled,
    _getCommitSha this (host ++ ":" ++ projectId) token tr
    = (Returned settled,
       (tr ++ [branch_request this token projectId "undefined"])%list).
Proof.
  intros Hhost Hid Hbreaker.
  unfold _getCommitSha, decodeScmUri.
  change (host ++ ":" ++ projectId) with (host ++ String ":" projectId).
  rewrite (split_free_field ":" host _ Hhost), (split_free_of ":" _ Hid).
  run. cbn [nth_error field_string]. rewrite Hbreaker.
  fold (branch_request this token projectId "undefined").
  settle; eauto.
Qed.

Lemma getCommitSha_without_branch_witness :
  exists settled,
    _getCommitSha (sample_this (constant_Request sample_branch))
      ("gitlab.example.com" ++ ":" ++ "42") "token" []
    = (Returned settled,
       ([] ++ [branch_request (sample_this (constant_Request sample_branch))
                 "token" "42" "undefined"])%list).
Proof.
  apply (getCommitSha_without_branch (sample_this (constant_Request sample_branch))
           (mkBreaker (constant_Request sample_branch) (VObj [])));
    reflexivity.
Defined.

(** ** Looking up an SCM URI, on an instance that has [this.Breaker] *)

Lemma split_namespaced (owner name : string) (deeper : option string) :
  free_of "/" owner = true ->
  free_of "/" name = true ->
  exists segments,
    split "/" (namespaced owner name deeper) = owner :: name :: segments.
Proof.
  intros Howner Hname. unfold namespaced.
  change (owner ++ "/" ++ name ++ match deeper with
                                  | Some segments => "/" ++ segments
                                  | None => EmptyString
                                  end)
    with (owner ++ String "/" (name ++ match deeper with
                                      | Some segments => String "/" segments
                                      | None => EmptyString
                                      end)).
  rewrite (split_free_field "/" owner _ Howner).
  destruct deeper as [segments|].
  - rewrite (split_free_field "/" name _ Hname). eauto.
  - assert (Hfree : free_of "/" (name ++ EmptyString) = true).
    { clear - Hname. induction name as [|c name IH]; [reflexivity|].
      unfold free_of in *. simpl in *. apply andb_prop in Hname as [Hc Hrest].
      rewrite Hc. simpl. apply IH, Hrest. }
    rewrite (split_free_of "/" _ Hfree).
    assert (Happ : name ++ EmptyString = name).
    { clear. induction name as [|c name IH]; [reflexivity|].
      simpl. rewrite IH. reflexivity. }
    rewrite Happ. eauto.
Qed.

Lemma lookupScmUri_found (this : GitlabScm) (b : Breaker)
    (scmUri token : string) (scmHost scmId scmBranch : option string)
    (response : response) (props : list (string * jsval)) (path : string)
    (tr : trace) :
  decodeScmUri scmUri = Returned (scmHost, scmId, scmBranch) ->
  this_get this "Breaker" = Some b ->
  command b tr (project_request this token (field_string scmId)) = Fulfilled response ->
  accepted response ->
  body response = VObj props ->
  assoc "path_with_namespace" props = Some (VStr path) ->
  lookupScmUri this scmUri token tr
  = (Returned (Fulfilled {| scm_branch := scmBranch;
                            scm_host := scmHost;
                            scm_repo := nth_error (split "/" path) 1;
                            scm_owner := nth_error (split "/" path) 0 |}),
     (tr ++ [project_request this token (field_string scmId)])%list).
Proof.
  intros Hdecode Hbreaker Hcommand Haccepted Hbody Hpath.
  unfold lookupScmUri. run. rewrite Hdecode, Hbreaker.
  fold (project_request this token (field_string scmId)). rewrite Hcommand.
  rewrite (checkResponseError_accepts _ Haccepted), Hbody.
  cbn [get_member get_property]. unfold object_get. rewrite Hpath.
  reflexivity.
Qed.

(** X8: [lookupScmUri] takes the owner and the repository from the first
    two segments of [path_with_namespace]: for a project in a nested group
    the repository it reports is the subgroup, and the deeper segments are
    dropped. *)
Theorem lookupScmUri_first_two_segments (this : GitlabScm) (b : Breaker)
    (scmUri token : string) (scmHost scmId scmBranch : option string)
    (response : response) (props : list (string * jsval))
    (owner name : string) (deeper : option string) (tr : trace) :
  decodeScmUri scmUri = Returned (scmHost, scmId, scmBranch) ->
  this_get this "Breaker" = Some b ->
  command b tr (project_request this token (field_string scmId)) = Fulfilled response ->
  accepted response ->
  body response = VObj props ->
  assoc "path_with_namespace" props = Some (VStr (namespaced owner name deeper)) ->
  free_of "/" owner = true ->
  free_of "/" name = true ->
  lookupScmUri this scmUri token tr
  = (Returned (Fulfilled {| scm_branch := scmBranch;
                            scm_host := scmHost;
                            scm_repo := Some name;
                            scm_owner := Some owner |}),
     (tr ++ [project_request this token (field_string scmId)])%list).
Proof.
  intros Hdecode Hbreaker Hcommand Haccepted Hbody Hpath Howner Hname.
  rewrite (lookupScmUri_found this b scmUri token scmHost scmId scmBranch
             response props _ tr Hdecode Hbreaker Hcommand Haccepted Hbody Hpath).
  destruct (split_namespaced owner name deeper Howner Hname) as [segments ->].
  reflexivity.
Qed.

Lemma lookupScmUri_first_two_segments_witness :
  lookupScmUri
    (patched_this (constant_Request
       (mkResponse 200
          (VObj [("path_with_namespace", VStr (namespaced "group" "subgroup" (Some "proj")))])
          [])))
    "gitlab.example.com:42:master" "token" []
  = (Returned (Fulfilled {| scm_branch := Some "master";
                            scm_host := Some "gitlab.example.com";
                            scm_repo := Some "subgroup";
                            scm_owner := Some "group" |}),
     ([] ++ [project_request
               (patched_this (constant_Request
                  (mkResponse 200
                     (VObj [("path_with_namespace",
                             VStr (namespaced "group" "subgroup" (Some "proj")))])
                     [])))
               "token" (field_string (Some "42"))])%list).
Proof.
  apply (lookupScmUri_first_two_segments _
           (mkBreaker (constant_Request
              (mkResponse 200
                 (VObj [("path_with_namespace",
                         VStr (namespaced "group" "subgroup" (Some "proj")))])
                 [])) (VObj []))
           "gitlab.example.com:42:master" "token"
           (Some "gitlab.example.com") (Some "42") (Some "master")
           (mkResponse 200
              (VObj [("path_with_namespace",
                      VStr (namespaced "group" "subgroup" (Some "proj")))]) [])
           [("path_with_namespace", VStr (namespaced "group" "subgroup" (Some "proj")))]
           "group" "subgroup" (Some "proj") []);
    first [reflexivity | unfold accepted; simpl; lia].
Defined.

(** X9: with the lookup answered, [_decorateUrl] resolves with the branch
    of the SCM URI, the name [owner/repo] and the URL of that branch's
    tree on the host of the SCM URI, over https whatever protocol is
    configured. *)
Theorem decorateUrl_resolves (this : GitlabScm) (b : Breaker)
    (scmUri token host projectId branchName : string)
    (response : response) (props : list (string * jsval))
    (owner name : string) (deeper : option string) (tr : trace) :
  decodeScmUri scmUri = Returned (Some host, Some projectId, Some branchName) ->
  this_get this "Breaker" = Some b ->
  command b tr (project_request this token projectId) = Fulfilled response ->
  accepted response ->
  body response = VObj props ->
  assoc "path_with_namespace" props = Some (VStr (namespaced owner name deeper)) ->
  free_of "/" owner = true ->
  free_of "/" name = true ->
  _decorateUrl this scmUri token tr
  = (Returned (Fulfilled (VObj
       [ ("branch", VStr branchName);
         ("name", VStr (owner ++ "/" ++ name));
         ("url", VStr ("https://" ++ host ++ "/" ++ owner ++ "/" ++ name
                         ++ "/tree/" ++ branchName)) ])),
     (tr ++ [project_request this token projectId])%list).
Proof.
  intros Hdecode Hbreaker Hcommand Haccepted Hbody Hpath Howner Hname.
  unfold _decorateUrl, bind.
  rewrite (lookupScmUri_found this b scmUri token _ _ _
             response props _ tr Hdecode Hbreaker Hcommand Haccepted Hbody Hpath).
  destruct (split_namespaced owner name deeper Howner Hname) as [segments ->].
  unfold then_, resolve, ret.
  cbn [nth_error scm_host scm_owner scm_repo scm_branch field_string optional].
  rewrite !append_assoc. reflexivity.
Qed.

Lemma decorateUrl_resolves_witness :
  _decorateUrl (patched_this (constant_Request sample_project))
    "gitlab.example.com:42:master" "token" []
  = (Returned (Fulfilled (VObj
       [ ("branch", VStr "master");
         ("name", VStr ("group" ++ "/" ++ "proj"));
         ("url", VStr ("https://" ++ "gitlab.example.com" ++ "/" ++ "group" ++ "/"
                         ++ "proj" ++ "/tree/" ++ "master")) ])),
     ([] ++ [project_request (patched_this (constant_Request sample_project))
               "token" "42"])%list).
Proof.
  apply (decorateUrl_resolves (patched_this (constant_Request sample_project))
           (mkBreaker (constant_Request sample_project) (VObj []))
           "gitlab.example.com:42:master" "token" "gitlab.example.com" "42" "master"
           sample_project
           [("id", VNum 42); ("path_with_namespace", VStr "group/proj")]
           "group" "proj" None []);
    first [reflexivity | unfold accepted; simpl; lia].
Defined.

(** ** The author's profile *)

(** X10: on an accepted response [_decorateAuthor] renames the profile
    fields ([avatar_url] to [avatar], [web_url] to [url]) without checking
    that they are there, so a missing field comes back [undefined]; a
    [null] body rejects the promise with a [TypeError]. *)
Theorem decorateAuthor_resolves (this : GitlabScm) (b : Breaker)
    (token : string) (login : jsval) (response : response) (tr : trace) :
  this_get this "breaker" = Some b ->
  command b tr (author_request this token login) = Fulfilled response ->
  accepted response ->
  exists settled,
    _decorateAuthor this token login tr
    = (Returned settled, (tr ++ [author_request this token login])%list)
    /\ (forall props,
          body response = VObj props ->
          settled = Fulfilled (VObj [ ("avatar", object_get props "avatar_url");
                                      ("name", object_get props "name");
                                      ("username", object_get props "username");
                                      ("url", object_get props "web_url") ])
          /\ (assoc "avatar_url" props = None ->
              object_get props "avatar_url" = VUndefined))
    /\ (body response = VNull ->
        settled = Rejected (TypeError "Cannot read property 'avatar_url' of null")).
Proof.
  intros Hbreaker Hcommand Haccepted.
  unfold _decorateAuthor. run. rewrite Hbreaker.
  fold (author_request this token login). rewrite Hcommand.
  rewrite (checkResponseError_accepts _ Haccepted).
  destruct (body response) as [| |flag|n|s|items|props|name] eqn:Hbody;
    cbn [get_member get_property]; eexists; (split; [reflexivity|]);
    split; try discriminate; try reflexivity.
  intros p Hp. injection Hp as <-. split; [reflexivity|].
  intros Hnone. unfold object_get. rewrite Hnone. reflexivity.
Qed.

Lemma decorateAuthor_resolves_witness :
  exists settled,
    _decorateAuthor (sample_this (constant_Request sample_user)) "token" (VStr "jdoe") []
    = (Returned settled,
       ([] ++ [author_request (sample_this (constant_Request sample_user))
                 "token" (VStr "jdoe")])%list)
    /\ (forall props,
          body sample_user = VObj props ->
          settled = Fulfilled (VObj [ ("avatar", object_get props "avatar_url");
                                      ("name", object_get props "name");
                                      ("username", object_get props "username");
                                      ("url", object_get props "web_url") ])
          /\ (assoc "avatar_url" props = None ->
              object_get props "avatar_url" = VUndefined))
    /\ (body sample_user = VNull ->
        settled = Rejected (TypeError "Cannot read property 'avatar_url' of null")).
Proof.
  apply (decorateAuthor_resolves (sample_this (constant_Request sample_user))
           (mkBreaker (constant_Request sample_user) (VObj [])));
    first [reflexivity | unfold accepted; simpl; lia].
Defined.

(** ** What the operations never do *)

(** X11: whatever the instance, the input and the answer of GitLab, each of
    the operations that goes through [runCommand] hands the breaker at most
    one request, a [GET] with the caller's token as bearer, keeps the
    requests logged before, and logs nothing when it throws. *)
Theorem operations_make_at_most_one_request
    (CHECKOUT_URL_exec : string -> option (list (option string)))
    (this : GitlabScm) (checkoutUrl scmUri token : string) (login : string)
    (tr : trace) :
  at_most_one_request token tr (_parseUrl CHECKOUT_URL_exec this checkoutUrl token tr)
  /\ at_most_one_request token tr (_decorateAuthor this token (VStr login) tr)
  /\ at_most_one_request token tr (_getPermissions this scmUri token tr)
  /\ at_most_one_request token tr (_getCommitSha this scmUri token tr)
  /\ at_most_one_request token tr (lookupScmUri this scmUri token tr)
  /\ at_most_one_request token tr (_decorateUrl this scmUri token tr).
Proof.
  refine (conj _ (conj _ (conj _ (conj _ (conj _ _))))).
  - unfold _parseUrl. run. settle; one_request.
  - unfold _decorateAuthor. run. settle; one_request.
  - unfold _getPermissions, decodeScmUri. run. settle; one_request.
  - unfold _getCommitSha, decodeScmUri. run. settle; one_request.
  - unfold lookupScmUri, decodeScmUri. run. settle; one_request.
  - unfold _decorateUrl, lookupScmUri, decodeScmUri. run. settle; one_request.
Qed.

(** ** The constructor and the configuration it keeps *)

Lemma joi_string_inv (v w : option string) :
  joi_string v = Returned w -> w = v /\ optional_ok v.
Proof.
  unfold joi_string, optional_ok. destruct v as [s|].
  - destruct (String.eqb s EmptyString) eqn:Hs; [discriminate|].
    intros H. injection H as <-. split; [reflexivity|].
    intros Heq. injection Heq as ->. discriminate.
  - intros H. injection H as <-. split; [reflexivity | discriminate].
Qed.


Lemma joi_required_inv (v : option string) (s : string) :
  joi_required v = Returned s -> v = Some s /\ s <> EmptyString.
Proof.
  unfold joi_required. destruct v as [x|]; [|discriminate].
  destruct (String.eqb x EmptyString) eqn:Hx; [discriminate|].
  intros H. injection H as <-. apply String.eqb_neq in Hx. auto.
Qed.


Lemma joi_object_inv (v w : option jsval) :
  joi_object v = Returned w -> w = v /\ object_ok v.
Proof.
  unfold joi_object, object_ok. destruct v as [[]|]; try discriminate;
    intros H; injection H as <-; eauto.
Qed.


(** What a successful validation says about the options: the strings are
    acceptable and the configuration is the options with the defaults
    filled in. *)
Lemma Joi_attempt_inv (o : options) (c : Config) :
  Joi_attempt o = Returned c ->
  (optional_ok (opt_gitlabProtocol o) /\ optional_ok (opt_gitlabHost o)
   /\ optional_ok (opt_username o) /\ optional_ok (opt_email o)
   /\ opt_oauthClientId o = Some (oauthClientId c)
   /\ oauthClientId c <> EmptyString
   /\ opt_oauthClientSecret o = Some (oauthClientSecret c)
   /\ oauthClientSecret c <> EmptyString
   /\ object_ok (opt_fusebox o))
  /\ c = {| gitlabProtocol := default "https" (opt_gitlabProtocol o);
            gitlabHost := opt_gitlabHost o;
            cfg_username := default "sd-buildbot" (opt_username o);
            email := default "dev-null@screwdriver.cd" (opt_email o);
            https := default false (opt_https o);
            oauthClientId := oauthClientId c;
            oauthClientSecret := oauthClientSecret c;
            fusebox := default (VObj []) (opt_fusebox o) |}.
Proof.
  unfold Joi_attempt.
  destruct (joi_string (opt_gitlabProtocol o)) as [protocol|] eqn:H1; [|discriminate].
  destruct (joi_string (opt_gitlabHost o)) as [host|] eqn:H2; [|discriminate].
  destruct (joi_string (opt_username o)) as [user|] eqn:H3; [|discriminate].
  destruct (joi_string (opt_email o)) as [mail|] eqn:H4; [|discriminate].
  destruct (joi_required (opt_oauthClientId o)) as [clientId|] eqn:H5; [|discriminate].
  destruct (joi_required (opt_oauthClientSecret o)) as [secret|] eqn:H6; [|discriminate].
  destruct (joi_object (opt_fusebox o)) as [fuse|] eqn:H7; [|discriminate].
  cbn [obind]. intros H. injection H as <-. cbn.
  apply joi_string_inv in H1 as [-> ?], H2 as [-> ?], H3 as [-> ?], H4 as [-> ?].
  apply joi_required_inv in H5 as [? ?], H6 as [? ?].
  apply joi_object_inv in H7 as [-> ?].
  repeat split; assumption.
Qed.


(** X13: for an instance the constructor built, [_getBellConfiguration]
    resolves, without any breaker call, with the OAuth credentials of the
    options, [isSecure] and [forceHttps] both equal to the [https] option
    (false when absent) and, only when a host was given, the [uri] made of
    the protocol (https when absent) and that host. *)
Theorem getBellConfiguration_of_options
    (Request : trace -> jsval -> promise response) (o : options)
    (this : GitlabScm) (tr : trace) :
  constructor Request o = Returned this ->
  exists clientId clientSecret,
    opt_oauthClientId o = Some clientId
    /\ opt_oauthClientSecret o = Some clientSecret
    /\ _getBellConfiguration this tr
       = (Returned (Fulfilled (VObj
            ([ ("provider", VStr "gitlab");
               ("clientId", VStr clientId);
               ("clientSecret", VStr clientSecret);
               ("isSecure", VBool (default false (opt_https o)));
               ("forceHttps", VBool (default false (opt_https o))) ]
             ++ match opt_gitlabHost o with
                | Some host =>
                    [ ("config",
                       VObj [ ("uri", VStr (default "https" (opt_gitlabProtocol o)
                                              ++ "://" ++ host)) ]) ]
                | None => []
                end)%list)),
          tr).
Proof.
  unfold constructor. intros Hnew.
  destruct (Joi_attempt o) as [c|] eqn:Hjoi; [|discriminate].
  cbn [obind] in Hnew. injection Hnew as <-.
  apply Joi_attempt_inv
    in Hjoi as [(H1 & H2 & H3 & H4 & H5 & H6 & H7 & H8 & H9) Hc].
  exists (oauthClientId c), (oauthClientSecret c).
  split; [exact H5|]. split; [exact H7|].
  unfold _getBellConfiguration, resolve, ret. cbn [config].
  rewrite Hc. cbn [gitlabProtocol gitlabHost https oauthClientId oauthClientSecret].
  destruct (opt_gitlabHost o) as [host|]; [|reflexivity].
  assert (Hgiven : given (Some host) = true).
  { unfold given. cbn. apply negb_true_iff, String.eqb_neq.
    intros ->. apply H2. reflexivity. }
  rewrite Hgiven. reflexivity.
Qed.

Lemma getBellConfiguration_of_options_witness :
  exists clientId clientSecret,
    opt_oauthClientId sample_options = Some clientId
    /\ opt_oauthClientSecret sample_options = Some clientSecret
    /\ _getBellConfiguration (sample_this sample_Request) []
       = (Returned (Fulfilled (VObj
            ([ ("provider", VStr "gitlab");
               ("clientId", VStr clientId);
               ("clientSecret", VStr clientSecret);
               ("isSecure", VBool (default false (opt_https sample_options)));
               ("forceHttps", VBool (default false (opt_https sample_options))) ]
             ++ match opt_gitlabHost sample_options with
                | Some host =>
                    [ ("config",
                       VObj [ ("uri",
                               VStr (default "https" (opt_gitlabProtocol sample_options)
                                       ++ "://" ++ host)) ]) ]
                | None => []
                end)%list)),
          []).
Proof.
  apply (getBellConfiguration_of_options sample_Request sample_options).
  reflexivity.
Defined.

(** ** The checkout command *)

Lemma join_app (sep : string) (l1 l2 : list string) :
  l1 <> [] -> l2 <> [] ->
  join sep (l1 ++ l2) = join sep l1 ++ sep ++ join sep l2.
Proof.
  intros H1 H2. induction l1 as [|x l1 IH]; [congruence|].
  destruct l1 as [|y l1].
  - simpl. destruct l2; [congruence | reflexivity].
  - change ((x :: y :: l1) ++ l2)%list with (x :: ((y :: l1) ++ l2))%list.
    rewrite join_cons by discriminate.
    rewrite IH by discriminate.
    rewrite (join_cons sep x (y :: l1)) by discriminate.
    rewrite !append_assoc. reflexivity.
Qed.

(** X14: for a pull request the checkout command is the command of a plain
    checkout of the branch head (the reset goes to the branch, not to the
    sha), followed by the fetch of the pull request ref, in which the first
    [merge] is replaced by [head:pr], and the merge of the sha; an empty
    [prRef] is no pull request. *)
Theorem getCheckoutCommand_pull_request (this : GitlabScm)
    (branchName host org name sha prRef : string) (tr : trace) :
  prRef <> EmptyString ->
  _getCheckoutCommand this branchName host org name sha (Some prRef) tr
  = (Returned (Fulfilled (VObj
       [ ("name", VStr "sd-checkout-code");
         ("command",
          VStr (join " && " (checkoutCommand this branchName host org name branchName None)
                  ++ " && " ++ "echo Fetching PR and merging with " ++ branchName
                  ++ " && " ++ "git fetch origin " ++ replace "merge" "head:pr" prRef
                  ++ " && " ++ "git merge --no-edit " ++ sha)) ])),
     tr)
  /\ _getCheckoutCommand this branchName host org name sha (Some EmptyString) tr
     = _getCheckoutCommand this branchName host org name sha None tr.
Proof.
  intros Hpr. split; [|reflexivity].
  unfold _getCheckoutCommand, checkoutCommand, resolve, ret.
  assert (Hgiven : given (Some prRef) = true).
  { unfold given. cbn. apply negb_true_iff, String.eqb_neq, Hpr. }
  rewrite Hgiven. cbn [given optional truthy field_string]. 
  change (String.eqb EmptyString EmptyString) with true. cbn [negb].
  rewrite app_nil_r.
  rewrite join_app by (unfold checkoutSteps, pullRequestSteps; discriminate).
  reflexivity.
Qed.

Lemma getCheckoutCommand_pull_request_witness :
  _getCheckoutCommand (sample_this sample_Request)
    "master" "gitlab.example.com" "group" "proj" "abc123" (Some "pull/3/merge") []
  = (Returned (Fulfilled (VObj
       [ ("name", VStr "sd-checkout-code");
         ("command",
          VStr (join " && " (checkoutCommand (sample_this sample_Request)
                               "master" "gitlab.example.com" "group" "proj" "master" None)
                  ++ " && " ++ "echo Fetching PR and merging with " ++ "master"
                  ++ " && " ++ "git fetch origin " ++ replace "merge" "head:pr" "pull/3/merge"
                  ++ " && " ++ "git merge --no-edit " ++ "abc123")) ])),
     [])
  /\ _getCheckoutCommand (sample_this sample_Request)
       "master" "gitlab.example.com" "group" "proj" "abc123" (Some EmptyString) []
     = _getCheckoutCommand (sample_this sample_Request)
         "master" "gitlab.example.com" "group" "proj" "abc123" None [].
Proof.
  apply getCheckoutCommand_pull_request. discriminate.
Defined.

(** ** More on [_decorateCommit] *)

(** X15: whatever the instance, the input and the answers, [_decorateCommit]
    keeps the requests logged before and hands the breaker at most three
    more; when it throws, it has made none. *)
Theorem decorateCommit_at_most_three_requests
    (validate_decorateAuthor : string -> jsval -> outcome (string * jsval))
    (validate_user : jsval -> outcome jsval)
    (this : GitlabScm) (scmUri sha token : string) (tr : trace) :
  exists extra,
    snd (_decorateCommit validate_decorateAuthor validate_user
           this scmUri sha token tr) = (tr ++ extra)%list
    /\ (List.length extra <= 3)%nat
    /\ forall e, fst (_decorateCommit validate_decorateAuthor validate_user
                        this scmUri sha token tr) = Thrown e ->
                 extra = [].
Proof.
  unfold _decorateCommit, commitLookup, lookupScmUri, decodeScmUri,
    authorLookup, decorateAuthor, _decorateAuthor, decorated, Promise_all,
    settled.
  run. settle; cbn [fst snd];
    first
      [ exists []; rewrite app_nil_r; split; [reflexivity|];
        split; [simpl; lia | reflexivity]
      | eexists; split; [rewrite <- ?app_assoc; reflexivity|];
        split; [simpl; lia | discriminate] ].
Qed.

(** X16: the whole of [_decorateCommit] on an instance whose two breaker
    properties are set: once the project lookup is accepted, the commit
    request goes out with the first two segments of the project path, and
    its answer is decorated without a look at its status code; a commit
    without author gets [DEFAULT_AUTHOR], and two requests are made in
    all. *)
Theorem decorateCommit_resolves
    (validate_decorateAuthor : string -> jsval -> outcome (string * jsval))
    (validate_user : jsval -> outcome jsval)
    (this : GitlabScm) (lookup commits : Breaker)
    (scmUri sha token : string) (scmHost scmId scmBranch : option string)
    (response commitData : response) (props : list (string * jsval))
    (owner name : string) (deeper : option string) (message : jsval)
    (tr : trace) :
  decodeScmUri scmUri = Returned (scmHost, scmId, scmBranch) ->
  this_get this "Breaker" = Some lookup ->
  this_get this "breaker" = Some commits ->
  command lookup tr (project_request this token (field_string scmId))
  = Fulfilled response ->
  accepted response ->
  body response = VObj props ->
  assoc "path_with_namespace" props = Some (VStr (namespaced owner name deeper)) ->
  free_of "/" owner = true ->
  free_of "/" name = true ->
  command commits (tr ++ [project_request this token (field_string scmId)])%list
    (getCommit token sha {| scm_branch := scmBranch;
                            scm_host := scmHost;
                            scm_repo := Some name;
                            scm_owner := Some owner |})
  = Fulfilled commitData ->
  truthy (get_property (response_value commitData) "author") = false ->
  get_member (get_property (response_value commitData) "commit") "message"
  = Returned message ->
  _decorateCommit validate_decorateAuthor validate_user this scmUri sha token tr
  = (Returned (Fulfilled (VObj
       [ ("author", DEFAULT_AUTHOR);
         ("message", message);
         ("url", get_property (response_value commitData) "html_url") ])),
     (tr ++ [ project_request this token (field_string scmId);
              getCommit token sha {| scm_branch := scmBranch;
                                     scm_host := scmHost;
                                     scm_repo := Some name;
                                     scm_owner := Some owner |} ])%list).
Proof.
  intros Hdecode Hlookup Hcommits Hcommand Haccepted Hbody Hpath Howner Hname
    Hcommit Hauthor Hmessage.
  unfold _decorateCommit, commitLookup, bind.
  rewrite (lookupScmUri_found this lookup scmUri token _ _ _
             response props _ tr Hdecode Hlookup Hcommand Haccepted Hbody Hpath).
  destruct (split_namespaced owner name deeper Howner Hname) as [segments ->].
  cbn [nth_error]. unfold then_ at 1, runCommand. rewrite Hcommits, Hcommit.
  unfold then_ at 1, authorLookup. rewrite Hauthor. cbn [negb].
  unfold resolve, ret. cbn [Promise_all]. unfold then_, decorated. run.
  rewrite Hmessage. rewrite <- app_assoc. reflexivity.
Qed.

Lemma decorateCommit_resolves_witness :
  _decorateCommit (fun token username => Returned (token, username)) Returned
    (patched_this unvalidated_Request)
    "gitlab.example.com:42:master" "abc123" "token" []
  = (Returned (Fulfilled (VObj
       [ ("author", DEFAULT_AUTHOR);
         ("message", VStr "fix typo");
         ("url", get_property (response_value sample_missing_commit) "html_url") ])),
     ([] ++ [ project_request (patched_this unvalidated_Request) "token"
                (field_string (Some "42"));
              getCommit "token" "abc123"
                {| scm_branch := Some "master";
                   scm_host := Some "gitlab.example.com";
                   scm_repo := Some "proj";
                   scm_owner := Some "group" |} ])%list).
Proof.
  apply (decorateCommit_resolves
           (fun token username => Returned (token, username)) Returned
           (patched_this unvalidated_Request)
           (mkBreaker unvalidated_Request (VObj []))
           (mkBreaker unvalidated_Request (VObj []))
           "gitlab.example.com:42:master" "abc123" "token"
           (Some "gitlab.example.com") (Some "42") (Some "master")
           sample_project sample_missing_commit
           [("id", VNum 42); ("path_with_namespace", VStr "group/proj")]
           "group" "proj" None (VStr "fix typo") []);
    first [reflexivity | unfold accepted; simpl; lia].
Defined.
